(** * kern-comments: the request handlers of [comments/views.py]

    A shallow embedding of the two class-based views [CommentView]
    (collection level: list, create) and [CommentDetailView] (item level:
    get, update, delete) and of the allow-all policy of
    [public/permissions.py], followed by the properties of the handlers.

    The handlers run in a small state-and-exception monad over the comment
    table.  Their collaborators that are not part of the sources at hand
    (the target resolver, the JSON schema validator, the bleach text
    transforms, the JSON parser, the policy registry) are variables of the
    section that holds the views. *)

From Stdlib Require Import ZArith String Ascii.
From stdpp Require Import gmap strings sorting.

Set Warnings "-register-all".

Local Open Scope string_scope.
Local Open Scope Z_scope.

(** ** Python values read from a request body *)

(** What [json.loads] yields: [None], [bool], [int], [str], [list], [dict].
    A dict keeps its keys in insertion order, as Python does.  Numbers are
    the integers. *)
Inductive json : Type :=
| JNull
| JBool (b : bool)
| JNum (n : Z)
| JStr (s : string)
| JArr (items : list json)
| JObj (members : list (string * json)).

(** The exceptions that the handlers can let escape. *)
Inductive exn : Type :=
| Http404
| JSONDecodeError
| AttributeError
| TypeError
| ValueError.

Inductive result (A : Type) : Type :=
| Ok (a : A)
| Raise (e : exn).
Arguments Ok {A} a.
Arguments Raise {A} e.

(** ** Data model *)

Definition User := string.

(** Primary key of a Django [ContentType] row. *)
Definition ContentType := Z.

(** The entity a comment is attached to, as [for_model] sees it: its
    content type and its primary key rendered as text. *)
Record Target : Type := mkTarget {
  target_content_type : ContentType;
  target_pk : string
}.

(** A row of the comment table.  The fields are those the views pass to
    [Comment.objects.create] and assign afterwards, and [submit_date], the
    creation time of the data model; the primary key is the key of the
    table. *)
Record Comment : Type := mkComment {
  content_type : ContentType;
  object_pk : string;
  user : User;
  parent : option Z;
  comment : string;
  is_active : bool;
  submit_date : Z
}.

(** The comment table, and every queryset over it: primary key to row. *)
Abbreviation QuerySet := (gmap Z Comment).
Abbreviation Store := (gmap Z Comment).

(** A model instance in the hands of a view: its primary key and fields. *)
Definition Instance : Type := Z * Comment.

(** ** HTTP requests and responses *)

Record HttpRequest : Type := mkRequest {
  request_user : User;
  is_authenticated : bool;
  request_body : string;
  (** the clock reading stamped on a row created while serving the request *)
  request_time : Z
}.

Inductive Content : Type :=
| NoContent
| ErrorJson (message : string)
| CommentJson (c : Instance)
| CommentListJson (cs : list Instance).

Record HttpResponse : Type := mkResponse {
  status_code : Z;
  content : Content
}.

(** ** The state-and-exception monad of a handler *)

Definition M (A : Type) : Type := Store -> result A * Store.

Definition ret {A} (a : A) : M A := fun s => (Ok a, s).

Definition raise {A} (e : exn) : M A := fun s => (Raise e, s).

Definition bind {A B} (m : M A) (k : A -> M B) : M B :=
  fun s =>
    match m s with
    | (Ok a, s') => k a s'
    | (Raise e, s') => (Raise e, s')
    end.

Definition lift {A} (r : result A) : M A := fun s => (r, s).

(** A library call that yields a value or raises [e]. *)
Definition or_raise {A} (e : exn) (o : option A) : result A :=
  match o with
  | Some a => Ok a
  | None => Raise e
  end.

(** Reads the table. *)
Definition objects : M QuerySet := fun s => (Ok s, s).

(** Writes one row: [instance.save()]. *)
Definition save (i : Instance) : M unit :=
  fun s => (Ok tt, <[fst i := snd i]> s).

Declare Scope handler_scope.
Delimit Scope handler_scope with handler.
Notation "x <- m ;; k" := (bind m (fun x => k))
  (at level 100, m at next level, right associativity) : handler_scope.
Notation "m ;;; k" := (bind m (fun _ => k))
  (at level 100, right associativity) : handler_scope.

(** ** Dict operations on a parsed body *)

Fixpoint assoc_get (key : string) (members : list (string * json)) : option json :=
  match members with
  | [] => None
  | (k, v) :: rest => if String.eqb k key then Some v else assoc_get key rest
  end.

(** [d[key] = value] on the members of a dict: an existing key keeps its
    place, a new key goes last. *)
Fixpoint assoc_set (key : string) (value : json) (members : list (string * json))
  : list (string * json) :=
  match members with
  | [] => [(key, value)]
  | (k, v) :: rest =>
      if String.eqb k key then (k, value) :: rest
      else (k, v) :: assoc_set key value rest
  end.

(** [body.get(key, default)]: only a dict has [get]. *)
Definition dict_get (body : json) (key : string) (default : json) : result json :=
  match body with
  | JObj members =>
      Ok (match assoc_get key members with Some v => v | None => default end)
  | _ => Raise AttributeError
  end.

(** [body[key] = value]; the views only do it after [body.get] went through. *)
Definition dict_setitem (body : json) (key : string) (value : json) : result json :=
  match body with
  | JObj members => Ok (JObj (assoc_set key value members))
  | _ => Raise TypeError
  end.

(** ** The comment manager *)

(** Modelled from the spec: [Comment.objects.active()] of models.py, which is
    not among the sources; the rows whose active flag is set. *)
Definition active (qs : QuerySet) : QuerySet :=
  filter (fun kc => is_active (snd kc) = true) qs.

(** Modelled from the spec: [Comment.objects.for_model(target)] of models.py,
    which is not among the sources; the rows whose (content type, object pk)
    pair is that of the target. *)
Definition for_model (t : Target) (qs : QuerySet) : QuerySet :=
  filter (fun kc => content_type (snd kc) = target_content_type t
                    /\ object_pk (snd kc) = target_pk t) qs.

(** [queryset.filter(id=k)] *)
Definition filter_id (k : Z) (qs : QuerySet) : QuerySet :=
  filter (fun kc => fst kc = k) qs.

Definition created_before (a b : Instance) : Prop :=
  submit_date (snd a) <= submit_date (snd b).

#[global] Instance created_before_dec : RelDecision created_before.
Proof. intros a b. unfold created_before. apply _. Defined.

#[global] Instance created_before_total : Total created_before.
Proof. intros a b. unfold created_before. lia. Qed.

(** Modelled from the spec: the order in which a comment queryset yields its
    rows (the [Meta.ordering] of models.py, which is not among the sources):
    creation time ascending. *)
Definition evaluate (qs : QuerySet) : list Instance :=
  merge_sort created_before (map_to_list qs).

(** [queryset.first()] *)
Definition first (qs : QuerySet) : option Instance := head (evaluate qs).

(** Modelled from the spec: the identifier that the store assigns to a new
    row (the auto-incremented key of models.py, which is not among the
    sources); one past the largest key in use. *)
Definition next_pk (s : Store) : Z :=
  1 + map_fold (fun k _ acc => Z.max k acc) 0 s.

(** Modelled from the spec: [Comment.objects.create(...)] of models.py, which
    is not among the sources; a new row under a fresh key, active by default,
    stamped with the time of the request. *)
Definition create (ct : ContentType) (pk : string) (u : User)
    (p : option Instance) (text : string) (now : Z) : M Instance :=
  fun s =>
    let k := next_pk s in
    let c := mkComment ct pk u (fst <$> p) text true now in
    (Ok (k, c), <[k := c]> s).

(** [get_object_or_404(queryset, pk=k)] *)
Definition get_object_or_404 (qs : QuerySet) (k : Z) : M Instance :=
  match qs !! k with
  | Some c => ret (k, c)
  | None => raise Http404
  end.

Definition set_comment (text : string) (c : Comment) : Comment :=
  mkComment (content_type c) (object_pk c) (user c) (parent c) text
            (is_active c) (submit_date c).

Definition set_is_active (b : bool) (c : Comment) : Comment :=
  mkComment (content_type c) (object_pk c) (user c) (parent c) (comment c)
            b (submit_date c).

(** ** Permission policies *)

(** The two role interfaces of the policy registry, [RootPerms] and
    [DetailPerms], with the methods that [public/permissions.py] overrides
    and the views call. *)
Record RootPerms : Type := mkRootPerms {
  can_list_comments : HttpRequest -> string -> string -> bool;
  can_create_comment : HttpRequest -> string -> string -> bool
}.

Record DetailPerms : Type := mkDetailPerms {
  can_get_comment : HttpRequest -> string -> string -> Z -> bool;
  can_update_comment : HttpRequest -> string -> string -> Z -> bool;
  can_delete_comment : HttpRequest -> string -> string -> Z -> bool
}.

Record Registry : Type := mkRegistry {
  RootViewPermissions : RootPerms;
  DetailViewPermissions : DetailPerms
}.

Definition set_permissions (root : RootPerms) (detail : DetailPerms)
    (registry : Registry) : Registry :=
  mkRegistry root detail.

(** [public/permissions.py]: the allow-all policy. *)
Definition Root : RootPerms :=
  {| can_list_comments := fun request content_type object_pk => true;
     can_create_comment := fun request content_type object_pk => true |}.

Definition Detail : DetailPerms :=
  {| can_get_comment := fun request content_type object_pk comment_id => true;
     can_update_comment := fun request content_type object_pk comment_id => true;
     can_delete_comment := fun request content_type object_pk comment_id => true |}.

Definition init_permissions (registry : Registry) : Registry :=
  set_permissions Root Detail registry.

(** ** Responses *)

(** [JSONResponse(data)]: status 200 unless one is given. *)
Definition JSONResponse (data : Content) : HttpResponse := mkResponse 200 data.

Definition _build_error_response (message : string) (status : Z) : HttpResponse :=
  mkResponse status (ErrorJson message).

Definition HttpResponseNotModified : HttpResponse := mkResponse 304 NoContent.

(** ** Sanitizing *)

Section Sanitize.
(** [bleach.clean] and [bleach.linkify] on text. *)
Variable bleach_clean : string -> string.
Variable bleach_linkify : string -> string.

(** [bleach.clean] accepts text only and raises [TypeError] on any other
    value. *)
Definition _sanitize_and_linkify (text : json) : result string :=
  match text with
  | JStr t => Ok (bleach_linkify (bleach_clean t))
  | _ => Raise TypeError
  end.
End Sanitize.

(** ** The framework around a handler *)

(** The method names that [View.dispatch] knows ([http_method_names]). *)
Inductive Method : Type :=
  GET | POST | PUT | PATCH | DELETE | HEAD | OPTIONS | TRACE.

(** [login_required]: an anonymous request is redirected to the login page
    and never reaches the view. *)
Definition login_required {A} (view : HttpRequest -> A -> M HttpResponse)
    (request : HttpRequest) (kwargs : A) : M HttpResponse :=
  if is_authenticated request then view request kwargs
  else ret (mkResponse 302 NoContent).

Definition http_method_not_allowed : M HttpResponse :=
  ret (mkResponse 405 NoContent).

(** [View.options]: an empty 200 that lists the allowed methods. *)
Definition options : M HttpResponse :=
  ret (mkResponse 200 NoContent).

(** What the framework answers when a view returns or lets an exception
    escape: [Http404] becomes a 404 page, anything else a server error. *)
Definition convert_exception_to_response (view : M HttpResponse)
    : Store -> HttpResponse * Store :=
  fun s =>
    match view s with
    | (Ok response, s') => (response, s')
    | (Raise Http404, s') => (mkResponse 404 NoContent, s')
    | (Raise _, s') => (mkResponse 500 NoContent, s')
    end.

(** ** [class CommentView(View)] *)

Module CommentView.
Section Handlers.
(** [get_registry()] at the time the class is defined *)
Variable registry : Registry.
(** [comments/target.py]: the resolved content type and target, or nothing *)
Variable get_content_type_and_target_or_none :
  string -> string -> option (ContentType * Target).
(** [json.loads]: the value read, or nothing when it raises *)
Variable json_loads : string -> option json.
Variable bleach_clean bleach_linkify : string -> string.
(** [Comment.validate_json]: the verdict and the error *)
Variable validate_json : json -> bool * string.
(** the integer that the ORM makes of a value looked up against [id], or
    nothing when it raises *)
Variable get_prep_value : json -> option Z.

Definition perms : RootPerms := RootViewPermissions registry.

Definition get_queryset (target : Target) (request : HttpRequest) : M QuerySet :=
  (qs <- objects ;;
   ret (active (for_model target qs)))%handler.

Definition get (request : HttpRequest) (content_type object_pk : string)
    : M HttpResponse :=
  (if negb (can_list_comments perms request content_type object_pk) then
     ret (_build_error_response "Permission denied" 403)
   else
     match get_content_type_and_target_or_none content_type object_pk with
     | None => ret (_build_error_response "Bad content type or object id" 404)
     | Some (content_type, target) =>
         comments <- get_queryset target request ;;
         ret (JSONResponse (CommentListJson (evaluate comments)))
     end)%handler.

Definition post (request : HttpRequest) (content_type_id object_pk : string)
    : M HttpResponse :=
  (if negb (can_create_comment perms request content_type_id object_pk) then
     ret (_build_error_response "Permission denied" 403)
   else
     match get_content_type_and_target_or_none content_type_id object_pk with
     | None => ret (_build_error_response "Bad content type or object id" 404)
     | Some (content_type, target) =>
         body <- lift (or_raise JSONDecodeError (json_loads (request_body request))) ;;
         raw <- lift (dict_get body "comment" (JStr EmptyString)) ;;
         text <- lift (_sanitize_and_linkify bleach_clean bleach_linkify raw) ;;
         body <- lift (dict_setitem body "comment" (JStr text)) ;;
         let (is_valid, err) := validate_json body in
         if negb is_valid then
           ret (_build_error_response err 400)
         else
           (* body["comment"] still holds [text] *)
           let finish (parent : option Instance) :=
             instance <- create content_type object_pk (request_user request)
                                parent text (request_time request) ;;
             ret (JSONResponse (CommentJson instance)) in
           parent_id <- lift (dict_get body "parentID" JNull) ;;
           match parent_id with
           | JNull => finish None
           | _ =>
               k <- lift (or_raise ValueError (get_prep_value parent_id)) ;;
               qs <- objects ;;
               match first (filter_id k (for_model target qs)) with
               | None => ret (_build_error_response "Bad parent" 404)
               | Some parent => finish (Some parent)
               end
           end
     end)%handler.

(** [View.dispatch] behind [VIEW_DECORATORS]; a view that has [get] answers
    HEAD with it. *)
Definition dispatch (method : Method) : HttpRequest -> string * string -> M HttpResponse :=
  login_required (fun request kwargs =>
    match method with
    | GET | HEAD => get request (fst kwargs) (snd kwargs)
    | POST => post request (fst kwargs) (snd kwargs)
    | OPTIONS => options
    | PUT | PATCH | DELETE | TRACE => http_method_not_allowed
    end).
End Handlers.
End CommentView.

(** ** [class CommentDetailView(View)] *)

Module CommentDetailView.
Section Handlers.
Variable registry : Registry.
Variable json_loads : string -> option json.
Variable bleach_clean bleach_linkify : string -> string.
Variable validate_json : json -> bool * string.

Definition perms : DetailPerms := DetailViewPermissions registry.

Definition get_queryset (request : HttpRequest) : M QuerySet :=
  (qs <- objects ;;
   ret (active qs))%handler.

Definition get (request : HttpRequest) (content_type object_pk : string)
    (comment_id : Z) : M HttpResponse :=
  (if negb (can_get_comment perms request content_type object_pk comment_id) then
     ret (_build_error_response "Permission denied" 403)
   else
     qs <- get_queryset request ;;
     comment <- get_object_or_404 qs comment_id ;;
     ret (JSONResponse (CommentJson comment)))%handler.

Definition put (request : HttpRequest) (content_type object_pk : string)
    (comment_id : Z) : M HttpResponse :=
  (if negb (can_update_comment perms request content_type object_pk comment_id) then
     ret (_build_error_response "Permission denied" 403)
   else
     qs <- get_queryset request ;;
     comment <- get_object_or_404 qs comment_id ;;
     body <- lift (or_raise JSONDecodeError (json_loads (request_body request))) ;;
     let (is_valid, err) := validate_json body in
     if negb is_valid then
       ret (_build_error_response err 400)
     else
       raw <- lift (dict_get body "comment" (JStr EmptyString)) ;;
       text <- lift (_sanitize_and_linkify bleach_clean bleach_linkify raw) ;;
       if negb (String.eqb text EmptyString) then
         let comment := (fst comment, set_comment text (snd comment)) in
         save comment ;;;
         ret (JSONResponse (CommentJson comment))
       else
         ret HttpResponseNotModified)%handler.

Definition delete (request : HttpRequest) (content_type object_pk : string)
    (comment_id : Z) : M HttpResponse :=
  (if negb (can_get_comment perms request content_type object_pk comment_id) then
     ret (_build_error_response "Permission denied" 403)
   else
     qs <- get_queryset request ;;
     comment <- get_object_or_404 qs comment_id ;;
     let comment := (fst comment, set_is_active false (snd comment)) in
     save comment ;;;
     ret (mkResponse 204 NoContent))%handler.

(** [View.dispatch] behind [VIEW_DECORATORS]; a view that has [get] answers
    HEAD with it. *)
Definition dispatch (method : Method)
    : HttpRequest -> string * string * Z -> M HttpResponse :=
  login_required (fun request kwargs =>
    match method, kwargs with
    | (GET | HEAD), (content_type, object_pk, comment_id) =>
        get request content_type object_pk comment_id
    | PUT, (content_type, object_pk, comment_id) =>
        put request content_type object_pk comment_id
    | DELETE, (content_type, object_pk, comment_id) =>
        delete request content_type object_pk comment_id
    | OPTIONS, _ => options
    | (POST | PATCH | TRACE), _ => http_method_not_allowed
    end).
End Handlers.
End CommentDetailView.

(** ** The five endpoints *)

Inductive Endpoint : Type :=
| ListComments
| CreateComment
| GetComment
| UpdateComment
| DeleteComment.

Section Endpoints.
Variable registry : Registry.
Variable get_content_type_and_target_or_none :
  string -> string -> option (ContentType * Target).
Variable json_loads : string -> option json.
Variable bleach_clean bleach_linkify : string -> string.
Variable validate_json : json -> bool * string.
Variable get_prep_value : json -> option Z.

(** The handler behind an endpoint; the collection endpoints have no
    comment id in their path. *)
Definition handler (e : Endpoint) (request : HttpRequest)
    (content_type object_pk : string) (comment_id : Z) : M HttpResponse :=
  match e with
  | ListComments =>
      CommentView.get registry get_content_type_and_target_or_none
                      request content_type object_pk
  | CreateComment =>
      CommentView.post registry get_content_type_and_target_or_none json_loads
                       bleach_clean bleach_linkify validate_json get_prep_value
                       request content_type object_pk
  | GetComment =>
      CommentDetailView.get registry request content_type object_pk comment_id
  | UpdateComment =>
      CommentDetailView.put registry json_loads bleach_clean bleach_linkify
                            validate_json request content_type object_pk comment_id
  | DeleteComment =>
      CommentDetailView.delete registry request content_type object_pk comment_id
  end.

(** The predicate that the handler of an endpoint tests first. *)
Definition governing (e : Endpoint) (request : HttpRequest)
    (content_type object_pk : string) (comment_id : Z) : bool :=
  match e with
  | ListComments =>
      can_list_comments (CommentView.perms registry) request content_type object_pk
  | CreateComment =>
      can_create_comment (CommentView.perms registry) request content_type object_pk
  | GetComment =>
      can_get_comment (CommentDetailView.perms registry)
                      request content_type object_pk comment_id
  | UpdateComment =>
      can_update_comment (CommentDetailView.perms registry)
                         request content_type object_pk comment_id
  | DeleteComment =>
      can_get_comment (CommentDetailView.perms registry)
                      request content_type object_pk comment_id
  end.

(** The item-level endpoints are those of [CommentDetailView]. *)
Definition is_item (e : Endpoint) : bool :=
  match e with
  | ListComments | CreateComment => false
  | GetComment | UpdateComment | DeleteComment => true
  end.

(** One request against one endpoint. *)
Record Call : Type := mkCall {
  call_endpoint : Endpoint;
  call_request : HttpRequest;
  call_content_type : string;
  call_object_pk : string;
  call_comment_id : Z
}.

(** Serving a request that is past [login_required]: the response that the
    handler and the framework make of it, and the table left. *)
Definition serve (c : Call) : Store -> HttpResponse * Store :=
  convert_exception_to_response
    (handler (call_endpoint c) (call_request c) (call_content_type c)
             (call_object_pk c) (call_comment_id c)).

(** Serving requests one after the other. *)
Definition serve_all (calls : list Call) (s : Store) : Store :=
  fold_left (fun s c => snd (serve c s)) calls s.
End Endpoints.

(** What serving one request may do to the table: nothing, rewrite a row
    that is active, or add a row under the next primary key. *)
Inductive touches (s : Store) : Store -> Prop :=
| touches_nothing : touches s s
| touches_active (k : Z) (c c' : Comment) :
    s !! k = Some c -> is_active c = true -> touches s (<[k := c']> s)
| touches_new (c' : Comment) : touches s (<[next_pk s := c']> s).

(** ** From the client to the handler *)

(** The method under which each endpoint is reached. *)
Definition method_of (e : Endpoint) : Method :=
  match e with
  | ListComments | GetComment => GET
  | CreateComment => POST
  | UpdateComment => PUT
  | DeleteComment => DELETE
  end.

Section Client.
Variable registry : Registry.
Variable get_content_type_and_target_or_none :
  string -> string -> option (ContentType * Target).
Variable json_loads : string -> option json.
Variable bleach_clean bleach_linkify : string -> string.
Variable validate_json : json -> bool * string.
Variable get_prep_value : json -> option Z.

(** A request on its whole way: through [login_required] and the dispatch
    of the view that serves the path, into the handler, and back through
    the framework. *)
Definition answer (c : Call) : Store -> HttpResponse * Store :=
  convert_exception_to_response
    (if is_item (call_endpoint c) then
       CommentDetailView.dispatch registry json_loads bleach_clean bleach_linkify
         validate_json (method_of (call_endpoint c)) (call_request c)
         (call_content_type c, call_object_pk c, call_comment_id c)
     else
       CommentView.dispatch registry get_content_type_and_target_or_none
         json_loads bleach_clean bleach_linkify validate_json get_prep_value
         (method_of (call_endpoint c)) (call_request c)
         (call_content_type c, call_object_pk c)).
End Client.

(** What serving one request may do to the table, row by row: nothing,
    give an active row a new body, clear the flag of an active row, or add a
    row under the next primary key. *)
Inductive edits (s : Store) : Store -> Prop :=
| edits_nothing : edits s s
| edits_body (k : Z) (c : Comment) (text : string) :
    s !! k = Some c -> is_active c = true ->
    edits s (<[k := set_comment text c]> s)
| edits_flag (k : Z) (c : Comment) :
    s !! k = Some c -> is_active c = true ->
    edits s (<[k := set_is_active false c]> s)
| edits_new (c' : Comment) : edits s (<[next_pk s := c']> s).

(** The fields of a row that no view assigns after the row is created. *)
Definition origin (c : Comment) : ContentType * string * User * option Z * Z :=
  (content_type c, object_pk c, user c, parent c, submit_date c).

(** The status codes that an authenticated client can get from an
    endpoint. *)
Definition answers (e : Endpoint) : list Z :=
  match e with
  | ListComments => [200; 403; 404]
  | CreateComment => [200; 400; 403; 404; 500]
  | GetComment => [200; 403; 404]
  | UpdateComment => [200; 304; 400; 403; 404; 500]
  | DeleteComment => [204; 403; 404]
  end.

(** ** Sample collaborators

    One concrete choice for every collaborator, so that the handlers can be
    evaluated on request bodies given as text. *)

Module Sample.

Definition dquote : ascii := "034"%char.

(** A JSON string literal around a text without escapes. *)
Definition quoted (s : string) : string :=
  String dquote (s +:+ String dquote EmptyString).

(** *** A reader for JSON text

    Objects, arrays, strings without escapes, integers, [null], [true] and
    [false], with blanks between tokens; on this fragment it yields what
    [json.loads] yields, and it refuses what [json.loads] refuses.  Text
    with escapes, fractions or exponents is outside the fragment and is
    refused as well. *)

Definition is_blank (c : ascii) : bool :=
  (Ascii.eqb c " " || Ascii.eqb c "009" || Ascii.eqb c "010" || Ascii.eqb c "013")%bool.

Fixpoint skip_blanks (s : string) : string :=
  match s with
  | String c rest => if is_blank c then skip_blanks rest else s
  | EmptyString => s
  end.

Definition digit_value (c : ascii) : option Z :=
  let n := Z.of_nat (nat_of_ascii c) in
  if (48 <=? n) && (n <=? 57) then Some (n - 48) else None.

Definition is_digit (c : ascii) : bool :=
  match digit_value c with Some _ => true | None => false end.

Fixpoint read_digits (acc : Z) (s : string) : Z * string :=
  match s with
  | String c rest =>
      match digit_value c with
      | Some d => read_digits (10 * acc + d) rest
      | None => (acc, s)
      end
  | EmptyString => (acc, s)
  end.

(** The digits of an integer: at least one, no superfluous leading zero,
    and no fraction or exponent behind them. *)
Definition read_natural (s : string) : option (Z * string) :=
  match s with
  | String c rest =>
      match digit_value c with
      | Some d =>
          let (n, rest') := if d =? 0 then (0, rest) else read_digits d rest in
          match rest' with
          | String c' _ =>
              if Ascii.eqb c' "." || Ascii.eqb c' "e" || Ascii.eqb c' "E"
                 || is_digit c'
              then None else Some (n, rest')
          | EmptyString => Some (n, rest')
          end
      | None => None
      end
  | EmptyString => None
  end.

(** The text up to the closing quote. *)
Fixpoint read_string (s : string) : option (string * string) :=
  match s with
  | String c rest =>
      if Ascii.eqb c dquote then Some (EmptyString, rest)
      else if Ascii.eqb c "\" then None
      else match read_string rest with
           | Some (t, rest') => Some (String c t, rest')
           | None => None
           end
  | EmptyString => None
  end.

Definition read_keyword (word : string) (v : json) (s : string)
    : option (json * string) :=
  if String.prefix word s
  then Some (v, String.substring (String.length word)
                                 (String.length s - String.length word)%nat s)
  else None.

Fixpoint read_value (fuel : nat) (s : string) : option (json * string) :=
  match fuel with
  | O => None
  | S fuel =>
      match skip_blanks s with
      | String "{" rest =>
          match skip_blanks rest with
          | String "}" rest' => Some (JObj [], rest')
          | _ => read_members fuel [] rest
          end
      | String "[" rest =>
          match skip_blanks rest with
          | String "]" rest' => Some (JArr [], rest')
          | _ => read_items fuel [] rest
          end
      | String "-" rest =>
          match read_natural rest with
          | Some (n, rest') => Some (JNum (- n), rest')
          | None => None
          end
      | String c rest as s' =>
          if Ascii.eqb c dquote then
            match read_string rest with
            | Some (t, rest') => Some (JStr t, rest')
            | None => None
            end
          else if Ascii.eqb c "n" then read_keyword "null" JNull s'
          else if Ascii.eqb c "t" then read_keyword "true" (JBool true) s'
          else if Ascii.eqb c "f" then read_keyword "false" (JBool false) s'
          else match read_natural s' with
               | Some (n, rest') => Some (JNum n, rest')
               | None => None
               end
      | EmptyString => None
      end
  end
with read_members (fuel : nat) (acc : list (string * json)) (s : string)
    : option (json * string) :=
  match fuel with
  | O => None
  | S fuel =>
      match skip_blanks s with
      | String c rest =>
          if Ascii.eqb c dquote then
            match read_string rest with
            | Some (key, rest') =>
                match skip_blanks rest' with
                | String ":" rest'' =>
                    match read_value fuel rest'' with
                    | Some (v, rest3) =>
                        let acc' := assoc_set key v acc in
                        match skip_blanks rest3 with
                        | String "," rest4 => read_members fuel acc' rest4
                        | String "}" rest4 => Some (JObj acc', rest4)
                        | _ => None
                        end
                    | None => None
                    end
                | _ => None
                end
            | None => None
            end
          else None
      | EmptyString => None
      end
  end
with read_items (fuel : nat) (acc : list json) (s : string)
    : option (json * string) :=
  match fuel with
  | O => None
  | S fuel =>
      match read_value fuel s with
      | Some (v, rest) =>
          match skip_blanks rest with
          | String "," rest' => read_items fuel (acc ++ [v]) rest'
          | String "]" rest' => Some (JArr (acc ++ [v]), rest')
          | _ => None
          end
      | None => None
      end
  end.

Definition json_loads (text : string) : option json :=
  match read_value (S (String.length text)) text with
  | Some (v, rest) =>
      match skip_blanks rest with
      | EmptyString => Some v
      | _ => None
      end
  | None => None
  end.

(** *** Text transforms

    A stand-in for [bleach.clean], which it follows on text without
    tags, comments or blanks at either end: it escapes the markup
    characters.  Beyond that it differs: it drops the blanks around the
    text and escapes every tag, where [bleach.clean] keeps the blanks and
    the tags it allows. *)

Fixpoint drop_trailing_blanks (s : string) : string :=
  match s with
  | String c rest =>
      match drop_trailing_blanks rest with
      | EmptyString => if is_blank c then EmptyString else String c EmptyString
      | rest' => String c rest'
      end
  | EmptyString => EmptyString
  end.

Fixpoint escape (s : string) : string :=
  match s with
  | String c rest =>
      (if Ascii.eqb c "<" then "&lt;"
       else if Ascii.eqb c ">" then "&gt;"
       else if Ascii.eqb c "&" then "&amp;"
       else String c EmptyString) +:+ escape rest
  | EmptyString => EmptyString
  end.

Definition bleach_clean (text : string) : string :=
  escape (drop_trailing_blanks (skip_blanks text)).

(** A stand-in for [bleach.linkify] on text that holds no address. *)
Definition bleach_linkify (text : string) : string := text.

(** *** Schema

    A stand-in for [Comment.validate_json]: a dict whose [comment] is a
    text of 1 to 20 characters and whose [parentID], when there is one, is
    an integer or [null]. *)
Definition max_length : nat := 20.

Definition validate_json (body : json) : bool * string :=
  match body with
  | JObj members =>
      match assoc_get "comment" members with
      | Some (JStr t) =>
          if (String.length t =? 0)%nat then (false, "comment is too short")
          else if (max_length <? String.length t)%nat then (false, "comment is too long")
          else match assoc_get "parentID" members with
               | None | Some JNull | Some (JNum _) => (true, EmptyString)
               | Some _ => (false, "parentID is not an integer")
               end
      | Some _ => (false, "comment is not a string")
      | None => (false, "comment is a required property")
      end
  | _ => (false, "body is not an object")
  end.

Definition get_prep_value (v : json) : option Z :=
  match v with
  | JNum n => Some n
  | JBool b => Some (if b then 1 else 0)
  | _ => None
  end.

(** *** Targets

    Content type 7 is open to comments and has the two objects 10 and 11. *)
Definition get_content_type_and_target_or_none (content_type object_pk : string)
    : option (ContentType * Target) :=
  if String.eqb content_type "7"
     && (String.eqb object_pk "10" || String.eqb object_pk "11")
  then Some (7, mkTarget 7 object_pk)
  else None.

(** *** Policies *)

Definition allow_all : Registry := init_permissions (mkRegistry Root Detail).

(** Everyone may read a comment; nobody may change or delete one. *)
Definition ReadOnlyDetail : DetailPerms :=
  {| can_get_comment := fun request content_type object_pk comment_id => true;
     can_update_comment := fun request content_type object_pk comment_id => false;
     can_delete_comment := fun request content_type object_pk comment_id => false |}.

Definition read_only : Registry := set_permissions Root ReadOnlyDetail allow_all.

Definition DenyRoot : RootPerms :=
  {| can_list_comments := fun request content_type object_pk => false;
     can_create_comment := fun request content_type object_pk => false |}.

Definition DenyDetail : DetailPerms :=
  {| can_get_comment := fun request content_type object_pk comment_id => false;
     can_update_comment := fun request content_type object_pk comment_id => false;
     can_delete_comment := fun request content_type object_pk comment_id => false |}.

Definition deny_all : Registry := set_permissions DenyRoot DenyDetail allow_all.

(** *** A comment table

    Three comments on object 10 of content type 7, the third one
    deactivated and the second one older than the first, and one comment
    on object 11. *)
Definition c1 : Comment := mkComment 7 "10" "ann" None "first" true 200.
Definition c2 : Comment := mkComment 7 "10" "bob" (Some 1) "second" true 100.
Definition c3 : Comment := mkComment 7 "10" "ann" None "withdrawn" false 150.
Definition c4 : Comment := mkComment 7 "11" "cy" None "elsewhere" true 120.

Definition table : Store := <[4 := c4]> (<[3 := c3]> (<[2 := c2]> (<[1 := c1]> ∅))).

Definition request (body : string) : HttpRequest := mkRequest "dee" true body 300.

(** *** The views over these collaborators *)

Definition list_comments (registry : Registry) :=
  CommentView.get registry get_content_type_and_target_or_none.

Definition create_comment (registry : Registry) :=
  CommentView.post registry get_content_type_and_target_or_none json_loads
                   bleach_clean bleach_linkify validate_json get_prep_value.

Definition get_comment (registry : Registry) := CommentDetailView.get registry.

Definition update_comment (registry : Registry) :=
  CommentDetailView.put registry json_loads bleach_clean bleach_linkify validate_json.

Definition delete_comment (registry : Registry) := CommentDetailView.delete registry.

(** [{"comment": text}] *)
Definition comment_body (text : string) : string :=
  "{" +:+ quoted "comment" +:+ ": " +:+ quoted text +:+ "}".

(** [{"comment": text, "parentID": k}] for a one-digit [k] *)
Definition reply_body (text : string) (k : string) : string :=
  "{" +:+ quoted "comment" +:+ ": " +:+ quoted text +:+ ", "
      +:+ quoted "parentID" +:+ ": " +:+ k +:+ "}".

End Sample.

(** * Properties *)

(** ** The comment manager *)

Lemma lookup_active (qs : QuerySet) (k : Z) (c : Comment) :
  active qs !! k = Some c <-> qs !! k = Some c /\ is_active c = true.
Proof. unfold active. by rewrite map_lookup_filter_Some. Qed.

Lemma lookup_active_None (qs : QuerySet) (k : Z) :
  active qs !! k = None <-> forall c, qs !! k = Some c -> is_active c = false.
Proof.
  unfold active. rewrite map_lookup_filter_None. split.
  - intros [Hn | Hn] c Hc; [congruence |].
    specialize (Hn c Hc). simpl in Hn. by destruct (is_active c).
  - intros H. right. intros c Hc. simpl. rewrite (H c Hc). discriminate.
Qed.

Lemma lookup_for_model (t : Target) (qs : QuerySet) (k : Z) (c : Comment) :
  for_model t qs !! k = Some c <->
  qs !! k = Some c /\ content_type c = target_content_type t /\ object_pk c = target_pk t.
Proof. unfold for_model. by rewrite map_lookup_filter_Some. Qed.

Lemma lookup_filter_id (j : Z) (qs : QuerySet) (k : Z) (c : Comment) :
  filter_id j qs !! k = Some c <-> qs !! k = Some c /\ k = j.
Proof. unfold filter_id. by rewrite map_lookup_filter_Some. Qed.

Lemma elem_of_evaluate (qs : QuerySet) (k : Z) (c : Comment) :
  (k, c) ∈ evaluate qs <-> qs !! k = Some c.
Proof.
  unfold evaluate. rewrite merge_sort_Permutation. apply elem_of_map_to_list.
Qed.

Lemma NoDup_evaluate (qs : QuerySet) : NoDup (evaluate qs).
Proof.
  unfold evaluate. rewrite merge_sort_Permutation. apply NoDup_map_to_list.
Qed.

Lemma Sorted_evaluate (qs : QuerySet) : Sorted created_before (evaluate qs).
Proof. unfold evaluate. apply Sorted_merge_sort, _. Qed.

(** A queryset narrowed to one id yields the row under that id, if any. *)
Lemma first_filter_id (j : Z) (qs : QuerySet) :
  first (filter_id j qs) = (fun c => (j, c)) <$> qs !! j.
Proof.
  unfold first.
  destruct (qs !! j) as [c |] eqn:Hj; simpl.
  - assert (filter_id j qs = {[ j := c ]}) as ->.
    { apply map_eq. intros i. apply option_eq. intros x.
      rewrite lookup_filter_id, lookup_singleton_Some.
      split; [intros [Hx ->]; split; congruence | intros [<- <-]; done]. }
    unfold evaluate. rewrite map_to_list_singleton. reflexivity.
  - assert (filter_id j qs = ∅) as ->.
    { apply map_eq. intros i. apply option_eq. intros x.
      rewrite lookup_filter_id, lookup_empty.
      split; [intros [Hx ->]; congruence | discriminate]. }
    unfold evaluate. rewrite map_to_list_empty. reflexivity.
Qed.

(** Every key in use lies below the next primary key. *)
Lemma lt_next_pk (s : Store) (k : Z) (c : Comment) :
  s !! k = Some c -> k < next_pk s.
Proof.
  unfold next_pk. rewrite map_fold_foldr, <- elem_of_map_to_list.
  induction (map_to_list s) as [| [j x] l IH]; intros Hin.
  - by apply elem_of_nil in Hin.
  - apply elem_of_cons in Hin as [Heq | Hin]; simpl.
    + inversion Heq; subst. lia.
    + specialize (IH Hin). lia.
Qed.

Lemma next_pk_fresh (s : Store) : s !! next_pk s = None.
Proof.
  destruct (s !! next_pk s) as [c |] eqn:H; [| done].
  apply lt_next_pk in H. lia.
Qed.

(** ** Dicts *)

Lemma assoc_get_set_ne (key key' : string) (v : json) (members : list (string * json)) :
  key <> key' -> assoc_get key' (assoc_set key v members) = assoc_get key' members.
Proof.
  intros Hne. induction members as [| [k x] rest IH]; simpl.
  - destruct (String.eqb_spec key key'); congruence.
  - destruct (String.eqb_spec k key) as [-> | Hk]; simpl.
    + destruct (String.eqb_spec key key'); congruence.
    + by rewrite IH.
Qed.

Lemma assoc_get_set_eq (key : string) (v : json) (members : list (string * json)) :
  assoc_get key (assoc_set key v members) = Some v.
Proof.
  induction members as [| [k x] rest IH]; simpl.
  - by rewrite String.eqb_refl.
  - destruct (String.eqb_spec k key) as [-> | Hk]; simpl.
    + by rewrite String.eqb_refl.
    + destruct (String.eqb_spec k key); [congruence | done].
Qed.

(** After [body[key] = v], the body holds [v] under [key] and what it held
    under every other key. *)
Lemma dict_setitem_get (body body' : json) (key key' : string) (v default : json) :
  dict_setitem body key v = Ok body' ->
  dict_get body' key' default
    = if String.eqb key key' then Ok v else dict_get body key' default.
Proof.
  destruct body; simpl; try discriminate. intros [= <-]. simpl.
  destruct (String.eqb_spec key key') as [<- | Hne].
  - by rewrite assoc_get_set_eq.
  - by rewrite assoc_get_set_ne.
Qed.

(** [body.get] either yields a value or raises [AttributeError]. *)
Lemma dict_get_cases (body : json) (key : string) (default : json) :
  (exists v, dict_get body key default = Ok v)
  \/ dict_get body key default = Raise AttributeError.
Proof. destruct body; simpl; eauto. Qed.

Lemma sanitize_cases (clean linkify : string -> string) (text : json) :
  (exists t, _sanitize_and_linkify clean linkify text = Ok t)
  \/ _sanitize_and_linkify clean linkify text = Raise TypeError.
Proof. destruct text; simpl; eauto. Qed.

(** ** The handlers *)

Ltac unfold_views :=
  unfold serve, convert_exception_to_response, handler, governing,
    CommentView.get, CommentView.post, CommentView.get_queryset,
    CommentDetailView.get, CommentDetailView.put, CommentDetailView.delete,
    CommentDetailView.get_queryset, get_object_or_404, create, save, objects,
    bind, lift, ret, raise.

Section Properties.
Set Default Proof Using "Type".
Variable registry : Registry.
Variable get_content_type_and_target_or_none :
  string -> string -> option (ContentType * Target).
Variable json_loads : string -> option json.
Variable bleach_clean bleach_linkify : string -> string.
Variable validate_json : json -> bool * string.
Variable get_prep_value : json -> option Z.

Local Abbreviation handle :=
  (handler registry get_content_type_and_target_or_none json_loads
           bleach_clean bleach_linkify validate_json get_prep_value).
Local Abbreviation list_comments :=
  (CommentView.get registry get_content_type_and_target_or_none).
Local Abbreviation create_comment :=
  (CommentView.post registry get_content_type_and_target_or_none json_loads
                    bleach_clean bleach_linkify validate_json get_prep_value).
Local Abbreviation get_comment := (CommentDetailView.get registry).
Local Abbreviation update_comment :=
  (CommentDetailView.put registry json_loads bleach_clean bleach_linkify validate_json).
Local Abbreviation delete_comment := (CommentDetailView.delete registry).
Local Abbreviation root := (RootViewPermissions registry).
Local Abbreviation detail := (DetailViewPermissions registry).
Local Abbreviation forbidden := (_build_error_response "Permission denied" 403).

(** A denied request gets the 403 response and nothing else happens. *)
Lemma denied_forbidden (e : Endpoint) (request : HttpRequest)
    (ctype opk : string) (comment_id : Z) (s : Store) :
  governing registry e request ctype opk comment_id = false ->
  handle e request ctype opk comment_id s = (Ok forbidden, s).
Proof.
  intros Hdenied. unfold governing in Hdenied.
  destruct e; unfold_views; rewrite Hdenied; reflexivity.
Qed.

(** Delete answers 403 exactly when [can_get_comment] says no. *)
Lemma delete_forbidden_iff (request : HttpRequest) (ctype opk : string)
    (comment_id : Z) (s : Store) :
  fst (delete_comment request ctype opk comment_id s) = Ok forbidden
  <-> can_get_comment detail request ctype opk comment_id = false.
Proof.
  split.
  - unfold_views. unfold CommentDetailView.perms. simpl.
    destruct (can_get_comment detail request ctype opk comment_id); [| done].
    simpl. destruct (active s !! comment_id); simpl; discriminate.
  - intros Hdenied. unfold_views. unfold CommentDetailView.perms. simpl.
    by rewrite Hdenied.
Qed.

Local Abbreviation bad_target :=
  (_build_error_response "Bad content type or object id" 404).

(** C3, as amended: when the (content_type, object_pk) pair of an authorized
    request does not resolve, the collection endpoints (list and create)
    return the 404 "Bad content type or object id" response and leave the
    table alone.  The item-level endpoints (get, update, delete) do not
    resolve the pair: the client gets a 404 exactly when no active comment
    has the requested id. *)
Theorem unresolved_target (e : Endpoint) (request : HttpRequest)
    (content_type object_pk : string) (comment_id : Z) (s : Store) :
  governing registry e request content_type object_pk comment_id = true ->
  get_content_type_and_target_or_none content_type object_pk = None ->
  (is_item e = false ->
     handle e request content_type object_pk comment_id s = (Ok bad_target, s))
  /\ (is_item e = true ->
        status_code (fst (serve registry get_content_type_and_target_or_none
                                json_loads bleach_clean bleach_linkify validate_json
                                get_prep_value
                                (mkCall e request content_type object_pk comment_id) s))
          = 404
        <-> active s !! comment_id = None).
Proof.
  intros Hperm Hnone. unfold governing in Hperm.
  split; intros He; destruct e; try discriminate He;
    unfold_views; simpl; rewrite Hperm; simpl.
  - by rewrite Hnone.
  - by rewrite Hnone.
  - destruct (active s !! comment_id); simpl; split; congruence.
  - destruct (active s !! comment_id) as [c |]; simpl; [| done].
    split; [| congruence]. intros H404. exfalso. revert H404.
    destruct (json_loads (request_body request)) as [body |]; simpl; [| discriminate].
    destruct (validate_json body) as [[|] err]; simpl; [| discriminate].
    destruct (dict_get_cases body "comment" (JStr EmptyString)) as [[raw ->] | ->];
      simpl; [| discriminate].
    destruct (sanitize_cases bleach_clean bleach_linkify raw) as [[text ->] | ->];
      simpl; [| discriminate].
    destruct (String.eqb text EmptyString); simpl; discriminate.
  - destruct (active s !! comment_id); simpl; split; congruence.
Qed.

(** C4, as amended: when the body of a create request (authorized, on a
    target that resolves) or of an update request (authorized, on an active
    comment) cannot be parsed, [json.loads] raises and the exception leaves
    the handler; the handler builds no response, the client gets the
    framework's 500, and the table is as it was. *)
Theorem malformed_body_escapes (request : HttpRequest)
    (content_type object_pk : string) (comment_id : Z) (s : Store) :
  json_loads (request_body request) = None ->
  (can_create_comment root request content_type object_pk = true ->
   is_Some (get_content_type_and_target_or_none content_type object_pk) ->
   create_comment request content_type object_pk s = (Raise JSONDecodeError, s)
   /\ convert_exception_to_response
        (create_comment request content_type object_pk) s
      = (mkResponse 500 NoContent, s))
  /\ (can_update_comment detail request content_type object_pk comment_id = true ->
      is_Some (active s !! comment_id) ->
      update_comment request content_type object_pk comment_id s
        = (Raise JSONDecodeError, s)
      /\ convert_exception_to_response
           (update_comment request content_type object_pk comment_id) s
         = (mkResponse 500 NoContent, s)).
Proof.
  intros Hbody. split.
  - intros Hperm [[ct target] Htarget]. unfold_views. unfold CommentView.perms.
    by rewrite Hperm, Htarget, Hbody.
  - intros Hperm [c Hc]. unfold_views. unfold CommentDetailView.perms.
    simpl. rewrite Hperm. simpl. rewrite Hc. simpl. by rewrite Hbody.
Qed.

(** What an authorized update of an active comment does once the body has
    been parsed, validated and sanitized. *)
Lemma update_outcome (request : HttpRequest) (ctype opk : string)
    (comment_id : Z) (s : Store) (c : Comment) (body raw : json)
    (err text : string) :
  can_update_comment detail request ctype opk comment_id = true ->
  s !! comment_id = Some c ->
  is_active c = true ->
  json_loads (request_body request) = Some body ->
  validate_json body = (true, err) ->
  dict_get body "comment" (JStr EmptyString) = Ok raw ->
  _sanitize_and_linkify bleach_clean bleach_linkify raw = Ok text ->
  update_comment request ctype opk comment_id s
    = if String.eqb text EmptyString
      then (Ok (mkResponse 304 NoContent), s)
      else (Ok (mkResponse 200 (CommentJson (comment_id, set_comment text c))),
            <[comment_id := set_comment text c]> s).
Proof.
  intros Hperm Hc Hactive Hbody Hvalid Hraw Htext.
  assert (active s !! comment_id = Some c) as Hfound by by apply lookup_active.
  unfold_views. unfold CommentDetailView.perms. simpl.
  rewrite Hperm. simpl. rewrite Hfound. simpl. rewrite Hbody. simpl.
  rewrite Hvalid. simpl. rewrite Hraw. simpl. rewrite Htext. simpl.
  by destruct (String.eqb text EmptyString).
Qed.

(** C6: an authorized update of an existing active comment, with a body that
    parses and passes the schema, branches on the sanitized text.  When the
    text is empty the handler returns 304 and the table, hence the comment
    with all its fields, is as it was.  When the text is not empty the
    handler stores the comment with the text as its new body, every other
    field and every other row as before, and returns 200 with the updated
    comment. *)
Theorem update_branches (request : HttpRequest) (ctype opk : string)
    (comment_id : Z) (s : Store) (c : Comment) (body raw : json)
    (err text : string) :
  can_update_comment detail request ctype opk comment_id = true ->
  s !! comment_id = Some c ->
  is_active c = true ->
  json_loads (request_body request) = Some body ->
  validate_json body = (true, err) ->
  dict_get body "comment" (JStr EmptyString) = Ok raw ->
  _sanitize_and_linkify bleach_clean bleach_linkify raw = Ok text ->
  (text = EmptyString ->
     update_comment request ctype opk comment_id s
       = (Ok (mkResponse 304 NoContent), s))
  /\ (text <> EmptyString ->
        exists c' : Comment,
          update_comment request ctype opk comment_id s
            = (Ok (mkResponse 200 (CommentJson (comment_id, c'))),
               <[comment_id := c']> s)
          /\ comment c' = text
          /\ content_type c' = content_type c
          /\ object_pk c' = object_pk c
          /\ user c' = user c
          /\ parent c' = parent c
          /\ is_active c' = is_active c
          /\ submit_date c' = submit_date c
          /\ forall k, k <> comment_id -> <[comment_id := c']> s !! k = s !! k).
Proof.
  intros Hperm Hc Hactive Hbody Hvalid Hraw Htext.
  rewrite (update_outcome request ctype opk comment_id s c body raw err text)
    by assumption.
  split.
  - intros ->. reflexivity.
  - intros Hne. exists (set_comment text c).
    destruct (String.eqb_spec text EmptyString) as [-> | _]; [done |].
    repeat split. intros k Hk. by apply lookup_insert_ne.
Qed.

(** C8: a create request that is authorized, on a target that resolves, with
    a body that parses and passes the schema, and that carries a [parentID]
    other than null: when the table has no comment of the target under that
    id (no row at all, or a row attached to another target), the handler
    returns the 404 "Bad parent" response and the table is as it was, so no
    comment is created. *)
Theorem bad_parent (request : HttpRequest) (ctype opk : string)
    (s : Store) (ct : ContentType) (target : Target) (body body' raw parent_id : json)
    (text err : string) (k : Z) :
  can_create_comment root request ctype opk = true ->
  get_content_type_and_target_or_none ctype opk = Some (ct, target) ->
  json_loads (request_body request) = Some body ->
  dict_get body "comment" (JStr EmptyString) = Ok raw ->
  _sanitize_and_linkify bleach_clean bleach_linkify raw = Ok text ->
  dict_setitem body "comment" (JStr text) = Ok body' ->
  validate_json body' = (true, err) ->
  dict_get body' "parentID" JNull = Ok parent_id ->
  parent_id <> JNull ->
  get_prep_value parent_id = Some k ->
  (forall c, s !! k = Some c ->
             ~ (content_type c = target_content_type target
                /\ object_pk c = target_pk target)) ->
  create_comment request ctype opk s
    = (Ok (mkResponse 404 (ErrorJson "Bad parent")), s).
Proof.
  intros Hperm Htarget Hbody Hraw Htext Hset Hvalid Hparent Hnotnull Hk Hnone.
  assert (first (filter_id k (for_model target s)) = None) as Hfirst.
  { rewrite first_filter_id.
    destruct (for_model target s !! k) as [c |] eqn:Hc; [| done].
    apply lookup_for_model in Hc as [Hc Hattached]. by destruct (Hnone c Hc). }
  unfold_views. unfold CommentView.perms. simpl.
  rewrite Hperm. simpl. rewrite Htarget, Hbody. simpl. rewrite Hraw. simpl.
  rewrite Htext. simpl. rewrite Hset. simpl. rewrite Hvalid. simpl.
  rewrite Hparent. simpl.
  destruct parent_id; try done; simpl; rewrite Hk; simpl; by rewrite Hfirst.
Qed.

(** C9: an authorized list request on a target that resolves returns 200
    with a sequence that holds a comment exactly when the table holds it
    with its active flag set and with the content type and object pk of the
    target, that holds no comment twice, and that is in ascending order of
    creation time; the table is as it was. *)
Theorem list_active_of_target (request : HttpRequest) (ctype opk : string)
    (s : Store) (ct : ContentType) (target : Target) :
  can_list_comments root request ctype opk = true ->
  get_content_type_and_target_or_none ctype opk = Some (ct, target) ->
  exists comments : list Instance,
    list_comments request ctype opk s
      = (Ok (mkResponse 200 (CommentListJson comments)), s)
    /\ (forall k c, (k, c) ∈ comments <->
                    s !! k = Some c /\ is_active c = true
                    /\ content_type c = target_content_type target
                    /\ object_pk c = target_pk target)
    /\ NoDup comments
    /\ Sorted (fun a b => submit_date (snd a) <= submit_date (snd b)) comments.
Proof.
  intros Hperm Htarget. exists (evaluate (active (for_model target s))).
  split; [| split; [| split]].
  - unfold_views. unfold CommentView.perms. simpl. rewrite Hperm. simpl.
    by rewrite Htarget.
  - intros k c. rewrite elem_of_evaluate, lookup_active, lookup_for_model.
    split; [intros [(? & ? & ?) ?] | intros (? & ? & ? & ?)];
      repeat split; assumption.
  - apply NoDup_evaluate.
  - apply Sorted_evaluate.
Qed.

(** C10: the item-level handlers hand [content_type] and [object_pk] to the
    permission predicate and use them nowhere else.  Two requests for the
    same comment id under two paths on which the predicates agree get the
    same outcome; and when the predicate allows it, get returns the active
    comment under the id, delete deactivates it and update rewrites it,
    whatever target that comment is attached to.  The comment is fetched
    from the active comments only: when no active comment has the id (there
    is no row, or the row is deactivated), get, update and delete raise
    [Http404], whatever the path, and leave the table as it is. *)
Theorem item_lookup_ignores_target (request : HttpRequest)
    (ctype opk ctype' opk' : string) (comment_id : Z) (s : Store) :
  can_get_comment detail request ctype opk comment_id
    = can_get_comment detail request ctype' opk' comment_id ->
  can_update_comment detail request ctype opk comment_id
    = can_update_comment detail request ctype' opk' comment_id ->
  get_comment request ctype opk comment_id s
    = get_comment request ctype' opk' comment_id s
  /\ update_comment request ctype opk comment_id s
     = update_comment request ctype' opk' comment_id s
  /\ delete_comment request ctype opk comment_id s
     = delete_comment request ctype' opk' comment_id s
  /\ (forall c,
        s !! comment_id = Some c -> is_active c = true ->
        (can_get_comment detail request ctype opk comment_id = true ->
         get_comment request ctype opk comment_id s
           = (Ok (mkResponse 200 (CommentJson (comment_id, c))), s)
         /\ delete_comment request ctype opk comment_id s
            = (Ok (mkResponse 204 NoContent),
               <[comment_id := set_is_active false c]> s))
        /\ (can_update_comment detail request ctype opk comment_id = true ->
            forall (body raw : json) (err text : string),
              json_loads (request_body request) = Some body ->
              validate_json body = (true, err) ->
              dict_get body "comment" (JStr EmptyString) = Ok raw ->
              _sanitize_and_linkify bleach_clean bleach_linkify raw = Ok text ->
              text <> EmptyString ->
              update_comment request ctype opk comment_id s
                = (Ok (mkResponse 200 (CommentJson (comment_id, set_comment text c))),
                   <[comment_id := set_comment text c]> s)))
  /\ ((forall c, s !! comment_id = Some c -> is_active c = false) ->
      active s !! comment_id = None
      /\ (can_get_comment detail request ctype opk comment_id = true ->
          get_comment request ctype opk comment_id s = (Raise Http404, s)
          /\ delete_comment request ctype opk comment_id s = (Raise Http404, s))
      /\ (can_update_comment detail request ctype opk comment_id = true ->
          update_comment request ctype opk comment_id s = (Raise Http404, s))).
Proof.
  intros Hget Hupdate.
  split; [| split; [| split; [| split]]].
  - unfold_views. unfold CommentDetailView.perms. simpl. by rewrite Hget.
  - unfold_views. unfold CommentDetailView.perms. simpl. by rewrite Hupdate.
  - unfold_views. unfold CommentDetailView.perms. simpl. by rewrite Hget.
  - intros c Hc Hactive. split.
    + intros Hperm. unfold_views. unfold CommentDetailView.perms. simpl.
      rewrite Hperm. simpl.
      rewrite (proj2 (lookup_active s comment_id c) (conj Hc Hactive)). by simpl.
    + intros Hperm body raw err text Hbody Hvalid Hraw Htext Hne.
      rewrite (update_outcome request ctype opk comment_id s c body raw err text)
        by assumption.
      by destruct (String.eqb_spec text EmptyString).
  - intros Hnone.
    assert (active s !! comment_id = None) as Hgone
      by by apply lookup_active_None.
    split; [done |]. split.
    + intros Hperm. unfold_views. unfold CommentDetailView.perms. simpl.
      rewrite Hperm. simpl. by rewrite Hgone.
    + intros Hperm. unfold_views. unfold CommentDetailView.perms. simpl.
      rewrite Hperm. simpl. by rewrite Hgone.
Qed.

(** *** Deactivated rows stay as they are *)

Lemma touches_frozen (s s' : Store) (k : Z) (c : Comment) :
  touches s s' -> s !! k = Some c -> is_active c = false -> s' !! k = Some c.
Proof.
  intros Hstep Hk Hinactive. destruct Hstep as [| j x x' Hj Hx | x'].
  - done.
  - rewrite lookup_insert_ne; [done |]. intros ->. congruence.
  - rewrite lookup_insert_ne; [done |]. intros <-.
    by rewrite next_pk_fresh in Hk.
Qed.

Lemma handler_touches (e : Endpoint) (request : HttpRequest) (ctype opk : string)
    (comment_id : Z) (s : Store) :
  touches s (snd (handle e request ctype opk comment_id s)).
Proof.
  destruct e; unfold_views; simpl.
  - repeat case_match; simplify_eq/=; constructor.
  - destruct (negb _); simpl; [constructor |].
    destruct (get_content_type_and_target_or_none ctype opk) as [[ct target] |];
      simpl; [| constructor].
    destruct (json_loads (request_body request)) as [body |]; simpl; [| constructor].
    destruct (dict_get body "comment" (JStr EmptyString)) as [raw |]; simpl;
      [| constructor].
    destruct (_sanitize_and_linkify bleach_clean bleach_linkify raw) as [text |];
      simpl; [| constructor].
    destruct (dict_setitem body "comment" (JStr text)) as [body' |]; simpl;
      [| constructor].
    destruct (validate_json body') as [[|] err]; simpl; [| constructor].
    destruct (dict_get body' "parentID" JNull) as [parent_id |]; simpl;
      [| constructor].
    destruct parent_id; simpl; try constructor;
      (destruct (get_prep_value _); simpl; [| constructor]);
      (destruct (first _); simpl; constructor).
  - repeat case_match; simplify_eq/=; constructor.
  - destruct (negb _); simpl; [constructor |].
    destruct (active s !! comment_id) as [c |] eqn:Hc; simpl; [| constructor].
    apply lookup_active in Hc as [Hc Hactive].
    destruct (json_loads (request_body request)) as [body |]; simpl; [| constructor].
    destruct (validate_json body) as [[|] err]; simpl; [| constructor].
    destruct (dict_get body "comment" (JStr EmptyString)) as [raw |]; simpl;
      [| constructor].
    destruct (_sanitize_and_linkify bleach_clean bleach_linkify raw) as [text |];
      simpl; [| constructor].
    destruct (negb _); simpl; [| constructor].
    by apply touches_active with c.
  - destruct (negb _); simpl; [constructor |].
    destruct (active s !! comment_id) as [c |] eqn:Hc; simpl; [| constructor].
    apply lookup_active in Hc as [Hc Hactive].
    by apply touches_active with c.
Qed.

Lemma serve_touches (call : Call) (s : Store) :
  touches s (snd (serve registry get_content_type_and_target_or_none json_loads
                        bleach_clean bleach_linkify validate_json get_prep_value
                        call s)).
Proof.
  destruct call as [e request ctype opk comment_id].
  pose proof (handler_touches e request ctype opk comment_id s) as Hstep.
  unfold serve, convert_exception_to_response. simpl.
  destruct (handle e request ctype opk comment_id s) as [[response | []] s'];
    exact Hstep.
Qed.

Lemma serve_all_frozen (calls : list Call) (s : Store) (k : Z) (c : Comment) :
  s !! k = Some c -> is_active c = false ->
  serve_all registry get_content_type_and_target_or_none json_loads
            bleach_clean bleach_linkify validate_json get_prep_value calls s !! k
    = Some c.
Proof.
  revert s. induction calls as [| call calls IH]; intros s Hk Hinactive; simpl.
  - done.
  - apply IH; [| done]. by eapply touches_frozen; [apply serve_touches | |].
Qed.

(** C7: an authorized delete of an existing active comment returns 204 and
    leaves the row in the table, with its active flag cleared and nothing
    else changed.  From then on, whatever requests are served in between,
    the row stays as it is, no active queryset holds it, and every
    authorized get on its id is answered with 404. *)
Theorem delete_is_soft (request : HttpRequest) (ctype opk : string)
    (comment_id : Z) (s : Store) (c : Comment) :
  can_get_comment detail request ctype opk comment_id = true ->
  s !! comment_id = Some c ->
  is_active c = true ->
  exists (s' : Store) (c' : Comment),
    delete_comment request ctype opk comment_id s
      = (Ok (mkResponse 204 NoContent), s')
    /\ s' !! comment_id = Some c'
    /\ is_active c' = false
    /\ (content_type c', object_pk c', user c', parent c', comment c', submit_date c')
       = (content_type c, object_pk c, user c, parent c, comment c, submit_date c)
    /\ (forall k, k <> comment_id -> s' !! k = s !! k)
    /\ forall (calls : list Call) (request' : HttpRequest) (ctype' opk' : string),
         let s'' :=
           serve_all registry get_content_type_and_target_or_none json_loads
                     bleach_clean bleach_linkify validate_json get_prep_value
                     calls s' in
         s'' !! comment_id = Some c'
         /\ active s'' !! comment_id = None
         /\ (can_get_comment detail request' ctype' opk' comment_id = true ->
             convert_exception_to_response
               (get_comment request' ctype' opk' comment_id) s''
             = (mkResponse 404 NoContent, s'')).
Proof.
  intros Hperm Hc Hactive.
  exists (<[comment_id := set_is_active false c]> s), (set_is_active false c).
  split; [| split; [| split; [| split; [| split]]]].
  - unfold_views. unfold CommentDetailView.perms. simpl. rewrite Hperm. simpl.
    rewrite (proj2 (lookup_active s comment_id c) (conj Hc Hactive)). by simpl.
  - apply lookup_insert_eq.
  - reflexivity.
  - reflexivity.
  - intros k Hk. by apply lookup_insert_ne.
  - intros calls request' ctype' opk' s''.
    assert (s'' !! comment_id = Some (set_is_active false c)) as Hfrozen.
    { apply serve_all_frozen; [apply lookup_insert_eq | reflexivity]. }
    assert (active s'' !! comment_id = None) as Hgone.
    { apply lookup_active_None. intros x Hx. rewrite Hfrozen in Hx.
      by inversion Hx. }
    split; [done |]. split; [done |].
    intros Hperm'. unfold_views. unfold CommentDetailView.perms. simpl.
    rewrite Hperm'. simpl. by rewrite Hgone.
Qed.

(** *** Which body the schema sees *)

(** Create validates the body whose comment is the sanitized text. *)
Lemma create_validates_sanitized (request : HttpRequest) (ctype opk : string)
    (s : Store) (ct : ContentType) (target : Target) (body body' raw : json)
    (text err : string) :
  can_create_comment root request ctype opk = true ->
  get_content_type_and_target_or_none ctype opk = Some (ct, target) ->
  json_loads (request_body request) = Some body ->
  dict_get body "comment" (JStr EmptyString) = Ok raw ->
  _sanitize_and_linkify bleach_clean bleach_linkify raw = Ok text ->
  dict_setitem body "comment" (JStr text) = Ok body' ->
  validate_json body' = (false, err) ->
  create_comment request ctype opk s = (Ok (mkResponse 400 (ErrorJson err)), s).
Proof.
  intros Hperm Htarget Hbody Hraw Htext Hset Hvalid.
  unfold_views. unfold CommentView.perms. simpl.
  rewrite Hperm. simpl. rewrite Htarget, Hbody. simpl. rewrite Hraw. simpl.
  rewrite Htext. simpl. rewrite Hset. simpl. by rewrite Hvalid.
Qed.

(** Update validates the body as it was parsed. *)
Lemma update_validates_raw (request : HttpRequest) (ctype opk : string)
    (comment_id : Z) (s : Store) (c : Comment) (body : json) (err : string) :
  can_update_comment detail request ctype opk comment_id = true ->
  active s !! comment_id = Some c ->
  json_loads (request_body request) = Some body ->
  validate_json body = (false, err) ->
  update_comment request ctype opk comment_id s
    = (Ok (mkResponse 400 (ErrorJson err)), s).
Proof.
  intros Hperm Hc Hbody Hvalid.
  unfold_views. unfold CommentDetailView.perms. simpl.
  rewrite Hperm. simpl. rewrite Hc. simpl. rewrite Hbody. simpl.
  by rewrite Hvalid.
Qed.

(** *** Behind the decorators *)

Lemma dispatch_anonymous (method : Method) (request : HttpRequest)
    (kwargs : string * string * Z) (s : Store) :
  is_authenticated request = false ->
  CommentDetailView.dispatch registry json_loads bleach_clean bleach_linkify
                             validate_json method request kwargs s
    = (Ok (mkResponse 302 NoContent), s).
Proof.
  intros Hanon. unfold CommentDetailView.dispatch, login_required.
  by rewrite Hanon.
Qed.

Lemma dispatch_delete (request : HttpRequest) (ctype opk : string) (comment_id : Z) :
  is_authenticated request = true ->
  CommentDetailView.dispatch registry json_loads bleach_clean bleach_linkify
                             validate_json DELETE request (ctype, opk, comment_id)
    = delete_comment request ctype opk comment_id.
Proof.
  intros Hauth. unfold CommentDetailView.dispatch, login_required.
  by rewrite Hauth.
Qed.

End Properties.

(** On each of the five endpoints, when the permission predicate that the
    handler tests (for delete that is [can_get_comment], not the
    [can_delete_comment] of the policy) returns false, the handler returns
    the 403 "Permission denied" response and the table as it found it.  This
    holds in any two worlds, whatever their tables hold and whatever their
    resolvers, parsers, sanitizers and validators would answer: the two
    responses are the same, so neither the target, nor the body, nor the
    table is consulted. *)
Theorem denied_short_circuits (registry : Registry) (e : Endpoint)
    (request : HttpRequest) (ctype opk : string) (comment_id : Z)
    (resolve1 resolve2 : string -> string -> option (ContentType * Target))
    (loads1 loads2 : string -> option json)
    (clean1 clean2 linkify1 linkify2 : string -> string)
    (validate1 validate2 : json -> bool * string)
    (prep1 prep2 : json -> option Z) (s1 s2 : Store) :
  governing registry e request ctype opk comment_id = false ->
  handler registry resolve1 loads1 clean1 linkify1 validate1 prep1
          e request ctype opk comment_id s1
    = (Ok (mkResponse 403 (ErrorJson "Permission denied")), s1)
  /\ handler registry resolve2 loads2 clean2 linkify2 validate2 prep2
             e request ctype opk comment_id s2
     = (Ok (mkResponse 403 (ErrorJson "Permission denied")), s2).
Proof.
  intros Hdenied. split; by apply denied_forbidden.
Qed.

(** * The handlers on the sample *)

Local Abbreviation blank := (Sample.request EmptyString).

(** C1: delete does not test [can_delete_comment].  Under a policy that lets
    everyone read and nobody delete, an authenticated DELETE on the active
    comment 1 is answered with 204 and the comment is deactivated, although
    [can_delete_comment] returns false for the request. *)
Theorem delete_ignores_can_delete_comment :
  is_authenticated blank = true
  /\ can_delete_comment (DetailViewPermissions Sample.read_only) blank "7" "10" 1 = false
  /\ CommentDetailView.dispatch Sample.read_only Sample.json_loads
       Sample.bleach_clean Sample.bleach_linkify Sample.validate_json
       DELETE blank ("7", "10", 1) Sample.table
     = (Ok (mkResponse 204 NoContent),
        <[1 := set_is_active false Sample.c1]> Sample.table).
Proof. repeat split; vm_compute; reflexivity. Qed.

(** C2: update validates the body before sanitizing it.  A comment of six
    [<] passes the schema as it is sent and is 24 characters long once
    sanitized, over the limit of the schema; update stores the sanitized
    text and returns 200, where create, which validates the sanitized body,
    answers the same body with 400. *)
Theorem update_validates_before_sanitizing :
  let sent := JObj [("comment", JStr "<<<<<<")] in
  let sanitized := JObj [("comment", JStr "&lt;&lt;&lt;&lt;&lt;&lt;")] in
  Sample.json_loads (Sample.comment_body "<<<<<<") = Some sent
  /\ Sample.validate_json sent = (true, EmptyString)
  /\ Sample.validate_json sanitized = (false, "comment is too long")
  /\ Sample.update_comment Sample.allow_all
       (Sample.request (Sample.comment_body "<<<<<<")) "7" "10" 1 Sample.table
     = (Ok (mkResponse 200
              (CommentJson (1, set_comment "&lt;&lt;&lt;&lt;&lt;&lt;" Sample.c1))),
        <[1 := set_comment "&lt;&lt;&lt;&lt;&lt;&lt;" Sample.c1]> Sample.table)
  /\ Sample.create_comment Sample.allow_all
       (Sample.request (Sample.comment_body "<<<<<<")) "7" "10" Sample.table
     = (Ok (mkResponse 400 (ErrorJson "comment is too long")), Sample.table).
Proof. repeat split; vm_compute; reflexivity. Qed.

(** C5: delete does not short-circuit on the predicate of the policy that
    governs it.  Under a policy that lets everyone read and nobody delete,
    [can_delete_comment] returns false for a delete of comment 1, and yet
    the handler fetches the comment and writes the table: where the comment
    is there and active the answer is 204 and the row is deactivated, where
    the table is empty [Http404] is raised and the client gets 404.  The
    answer is not 403 and it tells whether the comment exists. *)
Theorem denied_delete_is_served :
  can_delete_comment (DetailViewPermissions Sample.read_only) blank "7" "10" 1 = false
  /\ Sample.delete_comment Sample.read_only blank "7" "10" 1 Sample.table
     = (Ok (mkResponse 204 NoContent),
        <[1 := set_is_active false Sample.c1]> Sample.table)
  /\ Sample.delete_comment Sample.read_only blank "7" "10" 1 ∅
     = (Raise Http404, ∅)
  /\ fst (answer Sample.read_only Sample.get_content_type_and_target_or_none
                 Sample.json_loads Sample.bleach_clean Sample.bleach_linkify
                 Sample.validate_json Sample.get_prep_value
                 (mkCall DeleteComment blank "7" "10" 1) Sample.table)
     = mkResponse 204 NoContent
  /\ fst (answer Sample.read_only Sample.get_content_type_and_target_or_none
                 Sample.json_loads Sample.bleach_clean Sample.bleach_linkify
                 Sample.validate_json Sample.get_prep_value
                 (mkCall DeleteComment blank "7" "10" 1) ∅)
     = mkResponse 404 NoContent.
Proof. repeat split; vm_compute; reflexivity. Qed.

(** C3, the claim as stated fails: the pair ("9", "99") resolves to nothing,
    and an authorized get under that path for the active comment 4 is
    answered with 200 and the comment, not with 404. *)
Lemma item_get_unresolved_target :
  Sample.get_content_type_and_target_or_none "9" "99" = None
  /\ governing Sample.allow_all GetComment blank "9" "99" 4 = true
  /\ serve Sample.allow_all Sample.get_content_type_and_target_or_none
           Sample.json_loads Sample.bleach_clean Sample.bleach_linkify
           Sample.validate_json Sample.get_prep_value
           (mkCall GetComment blank "9" "99" 4) Sample.table
     = (mkResponse 200 (CommentJson (4, Sample.c4)), Sample.table)
  /\ status_code
       (fst (serve Sample.allow_all Sample.get_content_type_and_target_or_none
                   Sample.json_loads Sample.bleach_clean Sample.bleach_linkify
                   Sample.validate_json Sample.get_prep_value
                   (mkCall GetComment blank "9" "99" 4) Sample.table))
     <> 404.
Proof. repeat split; try (vm_compute; reflexivity). vm_compute. discriminate. Qed.

(** C4, the claim as stated fails: the body [{] does not parse; an authorized
    create on a target that resolves and an authorized update of an active
    comment let [JSONDecodeError] escape, and the client gets a 500, not a
    400. *)
Lemma malformed_body_not_400 :
  Sample.json_loads "{" = None
  /\ Sample.create_comment Sample.allow_all (Sample.request "{") "7" "10" Sample.table
     = (Raise JSONDecodeError, Sample.table)
  /\ Sample.update_comment Sample.allow_all (Sample.request "{") "7" "10" 1 Sample.table
     = (Raise JSONDecodeError, Sample.table)
  /\ status_code
       (fst (convert_exception_to_response
               (Sample.create_comment Sample.allow_all (Sample.request "{") "7" "10")
               Sample.table))
     <> 400
  /\ status_code
       (fst (convert_exception_to_response
               (Sample.update_comment Sample.allow_all (Sample.request "{") "7" "10" 1)
               Sample.table))
     <> 400.
Proof. repeat split; try (vm_compute; reflexivity); vm_compute; discriminate. Qed.

(** ** The theorems at sample requests *)

Local Abbreviation sample_handler :=
  (handler Sample.deny_all Sample.get_content_type_and_target_or_none
           Sample.json_loads Sample.bleach_clean Sample.bleach_linkify
           Sample.validate_json Sample.get_prep_value).

(** Under the deny-all policy a delete of comment 1 and a delete of a
    comment that does not exist, on a target that does not exist either, get
    the same 403. *)
Lemma denied_short_circuits_witness :
  sample_handler DeleteComment blank "7" "10" 1 Sample.table
    = (Ok (mkResponse 403 (ErrorJson "Permission denied")), Sample.table)
  /\ handler Sample.deny_all (fun _ _ => None) (fun _ => None)
             Sample.bleach_clean Sample.bleach_linkify
             Sample.validate_json Sample.get_prep_value
             DeleteComment blank "7" "10" 1 ∅
     = (Ok (mkResponse 403 (ErrorJson "Permission denied")), ∅).
Proof.
  apply (denied_short_circuits Sample.deny_all DeleteComment blank "7" "10" 1).
  reflexivity.
Defined.

(** Object 12 of content type 7 does not exist: the list is answered with
    404; comment 3 is not active: the get is answered with 404. *)
Lemma unresolved_target_witness :
  Sample.list_comments Sample.allow_all blank "7" "12" Sample.table
    = (Ok (mkResponse 404 (ErrorJson "Bad content type or object id")), Sample.table)
  /\ status_code
       (fst (serve Sample.allow_all Sample.get_content_type_and_target_or_none
                   Sample.json_loads Sample.bleach_clean Sample.bleach_linkify
                   Sample.validate_json Sample.get_prep_value
                   (mkCall GetComment blank "7" "12" 3) Sample.table))
     = 404.
Proof.
  split.
  - apply (unresolved_target Sample.allow_all
             Sample.get_content_type_and_target_or_none Sample.json_loads
             Sample.bleach_clean Sample.bleach_linkify Sample.validate_json
             Sample.get_prep_value ListComments blank "7" "12" 0 Sample.table);
      reflexivity.
  - apply (unresolved_target Sample.allow_all
             Sample.get_content_type_and_target_or_none Sample.json_loads
             Sample.bleach_clean Sample.bleach_linkify Sample.validate_json
             Sample.get_prep_value GetComment blank "7" "12" 3 Sample.table);
      vm_compute; reflexivity.
Defined.

Lemma malformed_body_escapes_witness :
  Sample.create_comment Sample.allow_all (Sample.request "{") "7" "10" Sample.table
    = (Raise JSONDecodeError, Sample.table)
  /\ Sample.update_comment Sample.allow_all (Sample.request "{") "7" "10" 1 Sample.table
     = (Raise JSONDecodeError, Sample.table).
Proof.
  pose proof (malformed_body_escapes Sample.allow_all
                Sample.get_content_type_and_target_or_none Sample.json_loads
                Sample.bleach_clean Sample.bleach_linkify Sample.validate_json
                Sample.get_prep_value (Sample.request "{") "7" "10" 1 Sample.table
                eq_refl) as [Hcreate Hupdate].
  split.
  - apply Hcreate; [reflexivity | vm_compute; eauto].
  - apply Hupdate; [reflexivity | vm_compute; eauto].
Defined.

(** The example of the spec: a comment of three blanks sanitizes to nothing
    and the update of comment 1 is answered with 304. *)
Lemma update_branches_witness :
  Sample.update_comment Sample.allow_all
    (Sample.request (Sample.comment_body "   ")) "7" "10" 1 Sample.table
    = (Ok (mkResponse 304 NoContent), Sample.table)
  /\ exists c',
       Sample.update_comment Sample.allow_all
         (Sample.request (Sample.comment_body "edited")) "7" "10" 1 Sample.table
       = (Ok (mkResponse 200 (CommentJson (1, c'))), <[1 := c']> Sample.table)
       /\ comment c' = "edited".
Proof.
  split.
  - apply (update_branches Sample.allow_all Sample.json_loads Sample.bleach_clean
             Sample.bleach_linkify Sample.validate_json
             (Sample.request (Sample.comment_body "   ")) "7" "10" 1 Sample.table
             Sample.c1 (JObj [("comment", JStr "   ")]) (JStr "   ")
             EmptyString EmptyString); vm_compute; reflexivity.
  - destruct (update_branches Sample.allow_all Sample.json_loads Sample.bleach_clean
             Sample.bleach_linkify Sample.validate_json
             (Sample.request (Sample.comment_body "edited")) "7" "10" 1 Sample.table
             Sample.c1 (JObj [("comment", JStr "edited")]) (JStr "edited")
             EmptyString "edited") as [_ Hedit]; try (vm_compute; reflexivity).
    destruct Hedit as (c' & Hc' & Htext & _); [discriminate |].
    exists c'. split; assumption.
Defined.

(** Comment 1 is deleted; ann's other comment is then rewritten, a reply is
    posted and the table is listed; the get on comment 1 that follows is
    answered with 404 and the row is still there. *)
Lemma delete_is_soft_witness :
  exists (s' : Store) (c' : Comment),
    Sample.delete_comment Sample.allow_all blank "7" "10" 1 Sample.table
      = (Ok (mkResponse 204 NoContent), s')
    /\ s' !! 1 = Some c'
    /\ is_active c' = false
    /\ comment c' = "first"
    /\ let s'' :=
         serve_all Sample.allow_all Sample.get_content_type_and_target_or_none
           Sample.json_loads Sample.bleach_clean Sample.bleach_linkify
           Sample.validate_json Sample.get_prep_value
           [mkCall UpdateComment (Sample.request (Sample.comment_body "edited"))
                   "7" "10" 1;
            mkCall CreateComment (Sample.request (Sample.reply_body "re" "1"))
                   "7" "10" 0;
            mkCall ListComments blank "7" "10" 0] s' in
       s'' !! 1 = Some c'
       /\ convert_exception_to_response
            (Sample.get_comment Sample.allow_all blank "7" "10" 1) s''
          = (mkResponse 404 NoContent, s'').
Proof.
  destruct (delete_is_soft Sample.allow_all
              Sample.get_content_type_and_target_or_none Sample.json_loads
              Sample.bleach_clean Sample.bleach_linkify Sample.validate_json
              Sample.get_prep_value blank "7" "10" 1 Sample.table Sample.c1)
    as (s' & c' & Hdelete & Hrow & Hinactive & Hfields & _ & Hlater);
    try reflexivity.
  exists s', c'. split; [exact Hdelete |]. split; [exact Hrow |].
  split; [exact Hinactive |].
  split; [injection Hfields as _ _ _ _ Hcomment _; exact Hcomment |].
  intros s''. subst s''.
  match goal with
  | |- context [serve_all _ _ _ _ _ _ _ ?calls _] =>
      destruct (Hlater calls blank "7" "10") as (Hstill & _ & Hget)
  end.
  split; [exact Hstill |]. apply Hget. reflexivity.
Defined.

(** Comment 4 is attached to object 11: a reply to it posted on object 10 is
    answered with 404 "Bad parent" and nothing is created. *)
Lemma bad_parent_witness :
  Sample.create_comment Sample.allow_all
    (Sample.request (Sample.reply_body "re" "4")) "7" "10" Sample.table
  = (Ok (mkResponse 404 (ErrorJson "Bad parent")), Sample.table).
Proof.
  apply (bad_parent Sample.allow_all Sample.get_content_type_and_target_or_none
           Sample.json_loads Sample.bleach_clean Sample.bleach_linkify
           Sample.validate_json Sample.get_prep_value
           (Sample.request (Sample.reply_body "re" "4")) "7" "10" Sample.table
           7 (mkTarget 7 "10")
           (JObj [("comment", JStr "re"); ("parentID", JNum 4)])
           (JObj [("comment", JStr "re"); ("parentID", JNum 4)])
           (JStr "re") (JNum 4) "re" EmptyString 4);
    try (vm_compute; reflexivity).
  - discriminate.
  - intros c Hc. vm_compute in Hc. inversion Hc; subst c. simpl.
    intros [_ Hpk]. discriminate Hpk.
Defined.

(** The list for object 10 holds its two active comments, the older first. *)
Lemma list_active_of_target_witness :
  exists comments : list Instance,
    Sample.list_comments Sample.allow_all blank "7" "10" Sample.table
      = (Ok (mkResponse 200 (CommentListJson comments)), Sample.table)
    /\ (forall k c, (k, c) ∈ comments <->
                    Sample.table !! k = Some c /\ is_active c = true
                    /\ content_type c = 7 /\ object_pk c = "10")
    /\ NoDup comments
    /\ Sorted (fun a b => submit_date (snd a) <= submit_date (snd b)) comments.
Proof.
  apply (list_active_of_target Sample.allow_all
           Sample.get_content_type_and_target_or_none blank "7" "10"
           Sample.table 7 (mkTarget 7 "10")); reflexivity.
Defined.

(** Comment 4 is attached to object 11; it is read, rewritten and
    deactivated all the same through a path that names object 10.  Comment 3
    is attached to object 10 and deactivated: a get through the path of
    object 10 raises [Http404], and so does a get on the id 99 that no row
    has. *)
Lemma item_lookup_ignores_target_witness :
  Sample.get_comment Sample.allow_all blank "7" "10" 4 Sample.table
    = Sample.get_comment Sample.allow_all blank "7" "11" 4 Sample.table
  /\ Sample.get_comment Sample.allow_all blank "7" "10" 4 Sample.table
     = (Ok (mkResponse 200 (CommentJson (4, Sample.c4))), Sample.table)
  /\ Sample.delete_comment Sample.allow_all blank "7" "10" 4 Sample.table
     = (Ok (mkResponse 204 NoContent),
        <[4 := set_is_active false Sample.c4]> Sample.table)
  /\ Sample.update_comment Sample.allow_all
       (Sample.request (Sample.comment_body "edited")) "7" "10" 4 Sample.table
     = (Ok (mkResponse 200 (CommentJson (4, set_comment "edited" Sample.c4))),
        <[4 := set_comment "edited" Sample.c4]> Sample.table)
  /\ Sample.get_comment Sample.allow_all blank "7" "10" 3 Sample.table
     = (Raise Http404, Sample.table)
  /\ Sample.delete_comment Sample.allow_all blank "7" "10" 3 Sample.table
     = (Raise Http404, Sample.table)
  /\ Sample.update_comment Sample.allow_all blank "7" "10" 3 Sample.table
     = (Raise Http404, Sample.table)
  /\ Sample.get_comment Sample.allow_all blank "7" "10" 99 Sample.table
     = (Raise Http404, Sample.table).
Proof.
  destruct (item_lookup_ignores_target Sample.allow_all Sample.json_loads
              Sample.bleach_clean Sample.bleach_linkify Sample.validate_json
              blank "7" "10" "7" "11" 4 Sample.table eq_refl eq_refl)
    as (Hget & _ & _ & Hany & _).
  destruct (Hany Sample.c4 eq_refl eq_refl) as [Hread _].
  destruct (item_lookup_ignores_target Sample.allow_all Sample.json_loads
              Sample.bleach_clean Sample.bleach_linkify Sample.validate_json
              (Sample.request (Sample.comment_body "edited"))
              "7" "10" "7" "11" 4 Sample.table eq_refl eq_refl)
    as (_ & _ & _ & Hany' & _).
  destruct (Hany' Sample.c4 eq_refl eq_refl) as [_ Hwrite].
  destruct (item_lookup_ignores_target Sample.allow_all Sample.json_loads
              Sample.bleach_clean Sample.bleach_linkify Sample.validate_json
              blank "7" "10" "7" "11" 3 Sample.table eq_refl eq_refl)
    as (_ & _ & _ & _ & Hinactive).
  destruct Hinactive as (_ & Hread3 & Hwrite3).
  { intros c Hc. vm_compute in Hc. injection Hc as <-. reflexivity. }
  destruct (item_lookup_ignores_target Sample.allow_all Sample.json_loads
              Sample.bleach_clean Sample.bleach_linkify Sample.validate_json
              blank "7" "10" "7" "11" 99 Sample.table eq_refl eq_refl)
    as (_ & _ & _ & _ & Hmissing).
  destruct Hmissing as (_ & Hread99 & _).
  { intros c Hc. vm_compute in Hc. discriminate Hc. }
  split; [exact Hget |]. split; [apply Hread; reflexivity |].
  split; [apply Hread; reflexivity |].
  split.
  { apply (Hwrite eq_refl (JObj [("comment", JStr "edited")]) (JStr "edited")
                  EmptyString "edited"); try (vm_compute; reflexivity).
    discriminate. }
  split; [apply Hread3; reflexivity |].
  split; [apply Hread3; reflexivity |].
  split; [apply Hwrite3; reflexivity |].
  apply Hread99; reflexivity.
Defined.

(** * Further properties of the views *)

Section Coverage.
Set Default Proof Using "Type".
Variable registry : Registry.
Variable get_content_type_and_target_or_none :
  string -> string -> option (ContentType * Target).
Variable json_loads : string -> option json.
Variable bleach_clean bleach_linkify : string -> string.
Variable validate_json : json -> bool * string.
Variable get_prep_value : json -> option Z.

Local Abbreviation handle :=
  (handler registry get_content_type_and_target_or_none json_loads
           bleach_clean bleach_linkify validate_json get_prep_value).
Local Abbreviation served :=
  (serve registry get_content_type_and_target_or_none json_loads
         bleach_clean bleach_linkify validate_json get_prep_value).
Local Abbreviation served_all :=
  (serve_all registry get_content_type_and_target_or_none json_loads
             bleach_clean bleach_linkify validate_json get_prep_value).
Local Abbreviation list_comments :=
  (CommentView.get registry get_content_type_and_target_or_none).
Local Abbreviation create_comment :=
  (CommentView.post registry get_content_type_and_target_or_none json_loads
                    bleach_clean bleach_linkify validate_json get_prep_value).
Local Abbreviation get_comment := (CommentDetailView.get registry).
Local Abbreviation update_comment :=
  (CommentDetailView.put registry json_loads bleach_clean bleach_linkify validate_json).
Local Abbreviation delete_comment := (CommentDetailView.delete registry).
Local Abbreviation root := (RootViewPermissions registry).
Local Abbreviation detail := (DetailViewPermissions registry).

(** ** What create does once the body has passed the schema *)

(** The row that create stores and the response that carries it. *)
Local Abbreviation created request ct opk parent text s :=
  (Ok (mkResponse 200
         (CommentJson
            (next_pk s,
             mkComment ct opk (request_user request) parent text true
                       (request_time request)))),
   <[next_pk s := mkComment ct opk (request_user request) parent text true
                            (request_time request)]> s).

Lemma create_outcome (request : HttpRequest) (ctype opk : string) (s : Store)
    (ct : ContentType) (target : Target) (body body' raw parent_id : json)
    (text err : string) :
  can_create_comment root request ctype opk = true ->
  get_content_type_and_target_or_none ctype opk = Some (ct, target) ->
  json_loads (request_body request) = Some body ->
  dict_get body "comment" (JStr EmptyString) = Ok raw ->
  _sanitize_and_linkify bleach_clean bleach_linkify raw = Ok text ->
  dict_setitem body "comment" (JStr text) = Ok body' ->
  validate_json body' = (true, err) ->
  dict_get body' "parentID" JNull = Ok parent_id ->
  create_comment request ctype opk s
    = match parent_id with
      | JNull => created request ct opk None text s
      | _ =>
          match get_prep_value parent_id with
          | None => (Raise ValueError, s)
          | Some k =>
              match for_model target s !! k with
              | None => (Ok (mkResponse 404 (ErrorJson "Bad parent")), s)
              | Some p => created request ct opk (Some k) text s
              end
          end
      end.
Proof.
  intros Hperm Htarget Hbody Hraw Htext Hset Hvalid Hparent.
  unfold_views. unfold CommentView.perms. simpl.
  rewrite Hperm. simpl. rewrite Htarget, Hbody. simpl. rewrite Hraw. simpl.
  rewrite Htext. simpl. rewrite Hset. simpl. rewrite Hvalid. simpl.
  rewrite Hparent. simpl.
  destruct parent_id; simpl; try reflexivity;
    (destruct (get_prep_value _) as [k |]; simpl; [| reflexivity]);
    rewrite first_filter_id;
    (destruct (for_model target s !! k); reflexivity).
Qed.


(** ** Status codes and side effects *)

Ltac split_views := unfold_views; simpl; repeat case_match; simplify_eq/=.

(** Past [login_required], each endpoint answers with one of its status
    codes. *)
Lemma status_of_handler (call : Call) (s : Store) :
  status_code (fst (served call s)) ∈ answers (call_endpoint call).
Proof.
  destruct call as [[] request ctype opk comment_id];
    split_views; set_solver.
Qed.

(** X1: on its whole way through [login_required], the dispatch of the
    view, the handler and the framework, a request of an anonymous client is
    answered 302 on every endpoint, and a request of an authenticated client
    is answered with one of the status codes of the endpoint: list and get
    answer 200, 403 or 404, delete 204, 403 or 404 (none of the three ever
    ends in a server error); create answers 200, 400, 403, 404 or 500 and
    update 200, 304, 400, 403, 404 or 500. *)
Theorem status_of_endpoint (call : Call) (s : Store) :
  status_code
    (fst (answer registry get_content_type_and_target_or_none json_loads
                 bleach_clean bleach_linkify validate_json get_prep_value call s))
  ∈ (if is_authenticated (call_request call)
     then answers (call_endpoint call)
     else [302]).
Proof.
  pose proof (status_of_handler call s) as Hserved.
  destruct call as [e request ctype opk comment_id].
  unfold answer, CommentView.dispatch, CommentDetailView.dispatch,
    login_required. simpl.
  destruct (is_authenticated request).
  - by destruct e.
  - clear Hserved. destruct e; simpl; constructor.
Qed.

(** X2: a request changes the table only when it is a create answered with
    200, an update answered with 200 or a delete answered with 204; in every
    other case, whatever the response or the exception, the table is as it
    was. *)
Theorem only_success_writes (call : Call) (s : Store) :
  snd (served call s) = s
  \/ (call_endpoint call = CreateComment /\ status_code (fst (served call s)) = 200)
  \/ (call_endpoint call = UpdateComment /\ status_code (fst (served call s)) = 200)
  \/ (call_endpoint call = DeleteComment /\ status_code (fst (served call s)) = 204).
Proof.
  destruct call as [[] request ctype opk comment_id];
    split_views; auto.
Qed.


(** X3: under the allow-all policy that [init_permissions] installs, whatever
    registry was there before, no request to any endpoint is answered 403. *)
Theorem allow_all_never_forbids (call : Call) (s : Store) :
  status_code
    (fst (serve (init_permissions registry) get_content_type_and_target_or_none
                json_loads bleach_clean bleach_linkify validate_json
                get_prep_value call s))
  <> 403.
Proof.
  destruct call as [[] request ctype opk comment_id];
    split_views; discriminate.
Qed.

(** ** Create *)

(** Every 200 of create carries a row made from the request. *)
Lemma create_success_shape (request : HttpRequest) (ctype opk : string)
    (s s' : Store) (r : HttpResponse) :
  create_comment request ctype opk s = (Ok r, s') ->
  status_code r = 200 ->
  exists (ct : ContentType) (target : Target) (c : Comment) (t : string),
    get_content_type_and_target_or_none ctype opk = Some (ct, target)
    /\ r = mkResponse 200 (CommentJson (next_pk s, c))
    /\ s' = <[next_pk s := c]> s
    /\ c = mkComment ct opk (request_user request) (parent c)
                     (bleach_linkify (bleach_clean t)) true (request_time request)
    /\ (forall k, parent c = Some k -> is_Some (for_model target s !! k)).
Proof.
  unfold_views. unfold CommentView.perms. simpl.
  destruct (negb _); simpl; [intros [= <- <-]; discriminate |].
  destruct (get_content_type_and_target_or_none ctype opk) as [[ct target] |];
    simpl; [| intros [= <- <-]; discriminate].
  destruct (json_loads (request_body request)) as [body |]; simpl; [| discriminate].
  destruct (dict_get body "comment" (JStr EmptyString)) as [raw |]; simpl;
    [| discriminate].
  destruct raw as [| | | t | |]; simpl; try discriminate.
  destruct (dict_setitem body "comment" _) as [body' |]; simpl; [| discriminate].
  destruct (validate_json body') as [[|] err]; simpl;
    [| intros [= <- <-]; discriminate].
  destruct (dict_get body' "parentID" JNull) as [parent_id |]; simpl;
    [| discriminate].
  assert (forall p : option Z,
            (forall k, p = Some k -> is_Some (for_model target s !! k)) ->
            created request ct opk p (bleach_linkify (bleach_clean t)) s = (Ok r, s') ->
            status_code r = 200 ->
            exists (ct0 : ContentType) (target0 : Target) (c : Comment) (t0 : string),
              Some (ct, target) = Some (ct0, target0)
              /\ r = mkResponse 200 (CommentJson (next_pk s, c))
              /\ s' = <[next_pk s := c]> s
              /\ c = mkComment ct0 opk (request_user request) (parent c)
                               (bleach_linkify (bleach_clean t0)) true
                               (request_time request)
              /\ (forall k, parent c = Some k -> is_Some (for_model target0 s !! k)))
    as Hcreated.
  { intros p Hp [= <- <-] _.
    by exists ct, target,
      (mkComment ct opk (request_user request) p
                 (bleach_linkify (bleach_clean t)) true (request_time request)), t. }
  destruct parent_id; simpl;
    try (apply (Hcreated None); intros k; discriminate);
    (destruct (get_prep_value _) as [k |]; simpl; [| discriminate]);
    rewrite first_filter_id;
    (destruct (for_model target s !! k) as [p |] eqn:Hp; simpl;
       [| intros [= <- <-]; discriminate]);
    apply (Hcreated (Some k)); intros k' [= <-]; by rewrite Hp.
Qed.

(** X4: whenever create answers 200, the table has gained exactly one row,
    under a key that was not in use, and the response carries it: its
    content type is the resolved one, its object pk the one of the path, its
    author the user of the request, its body an output of the sanitizer, it
    is active, and its parent, if any, is a comment of the same target.  The
    rows that were there are as they were. *)
Theorem create_stores_one_row (request : HttpRequest) (ctype opk : string)
    (s s' : Store) (r : HttpResponse) :
  create_comment request ctype opk s = (Ok r, s') ->
  status_code r = 200 ->
  exists (ct : ContentType) (target : Target) (k : Z) (c : Comment) (t : string),
    get_content_type_and_target_or_none ctype opk = Some (ct, target)
    /\ content r = CommentJson (k, c)
    /\ s !! k = None
    /\ s' !! k = Some c
    /\ (forall j, j <> k -> s' !! j = s !! j)
    /\ content_type c = ct
    /\ object_pk c = opk
    /\ user c = request_user request
    /\ comment c = bleach_linkify (bleach_clean t)
    /\ is_active c = true
    /\ (forall p, parent c = Some p ->
          exists x, s !! p = Some x
                    /\ content_type x = target_content_type target
                    /\ object_pk x = target_pk target).
Proof.
  intros Hcreate Hstatus.
  destruct (create_success_shape request ctype opk s s' r Hcreate Hstatus)
    as (ct & target & c & t & Htarget & -> & -> & Hc & Hparent).
  exists ct, target, (next_pk s), c, t.
  split; [done |]. split; [done |]. split; [apply next_pk_fresh |].
  split; [apply lookup_insert_eq |].
  split; [intros j Hj; by apply lookup_insert_ne |].
  rewrite Hc. simpl. repeat (split; [reflexivity |]).
  intros p Hp. destruct (Hparent p Hp) as [x Hx].
  apply lookup_for_model in Hx. by exists x.
Qed.

(** X5: the parent of a reply is looked up among all the comments of the
    target, active or not: a create whose [parentID] names a comment of the
    target is answered 200 and stores the reply under that parent even when
    the parent has been deactivated. *)
Theorem reply_to_any_comment_of_target (request : HttpRequest) (ctype opk : string)
    (s : Store) (ct : ContentType) (target : Target)
    (body body' raw parent_id : json) (text err : string) (k : Z) (p : Comment) :
  can_create_comment root request ctype opk = true ->
  get_content_type_and_target_or_none ctype opk = Some (ct, target) ->
  json_loads (request_body request) = Some body ->
  dict_get body "comment" (JStr EmptyString) = Ok raw ->
  _sanitize_and_linkify bleach_clean bleach_linkify raw = Ok text ->
  dict_setitem body "comment" (JStr text) = Ok body' ->
  validate_json body' = (true, err) ->
  dict_get body' "parentID" JNull = Ok parent_id ->
  parent_id <> JNull ->
  get_prep_value parent_id = Some k ->
  s !! k = Some p ->
  content_type p = target_content_type target ->
  object_pk p = target_pk target ->
  create_comment request ctype opk s = created request ct opk (Some k) text s.
Proof.
  intros Hperm Htarget Hbody Hraw Htext Hset Hvalid Hparent Hnotnull Hk Hp Hct Hpk.
  rewrite (create_outcome request ctype opk s ct target body body' raw parent_id
             text err) by assumption.
  assert (for_model target s !! k = Some p) as Hfound
    by (apply lookup_for_model; auto).
  destruct parent_id; try done; by rewrite Hk, Hfound.
Qed.

(** X6: a comment that create has just stored can be read back: an
    authorized get on its id returns it with 200, and when the resolved
    target has the content type and the object pk under which the row was
    stored, an authorized list of the same path holds it. *)
Theorem create_then_read (request : HttpRequest) (ctype opk : string)
    (s s' : Store) (r : HttpResponse) :
  create_comment request ctype opk s = (Ok r, s') ->
  status_code r = 200 ->
  exists (k : Z) (c : Comment),
    content r = CommentJson (k, c)
    /\ (forall (request' : HttpRequest) (ctype' opk' : string),
          can_get_comment detail request' ctype' opk' k = true ->
          get_comment request' ctype' opk' k s'
            = (Ok (mkResponse 200 (CommentJson (k, c))), s'))
    /\ (forall (request' : HttpRequest) (ct : ContentType) (target : Target),
          can_list_comments root request' ctype opk = true ->
          get_content_type_and_target_or_none ctype opk = Some (ct, target) ->
          target_content_type target = ct ->
          target_pk target = opk ->
          exists comments,
            list_comments request' ctype opk s'
              = (Ok (mkResponse 200 (CommentListJson comments)), s')
            /\ (k, c) ∈ comments).
Proof.
  intros Hcreate Hstatus.
  destruct (create_success_shape request ctype opk s s' r Hcreate Hstatus)
    as (ct & target & c & t & Htarget & -> & -> & Hc & _).
  exists (next_pk s), c. split; [done |].
  assert (is_active c = true) as Hactive by by rewrite Hc.
  split.
  - intros request' ctype' opk' Hperm.
    unfold_views. unfold CommentDetailView.perms. simpl. rewrite Hperm. simpl.
    rewrite (proj2 (lookup_active _ (next_pk s) c)
               (conj (lookup_insert_eq _ _ _) Hactive)).
    by simpl.
  - intros request' ct' target' Hperm Htarget' Hct Hpk.
    rewrite Htarget in Htarget'. injection Htarget' as <- <-.
    eexists. split.
    + unfold_views. unfold CommentView.perms. simpl. rewrite Hperm. simpl.
      by rewrite Htarget.
    + apply elem_of_evaluate, lookup_active. split; [| done].
      apply lookup_for_model. split; [apply lookup_insert_eq |].
      rewrite Hc. simpl. by split.
Qed.


(** X7: once create has the parsed body, the schema sees that body with its
    comment replaced by the sanitized text (the sanitized empty text when
    the body had no comment) and every other key as sent; when the schema
    rejects it, the response is 400 with the error of the schema and nothing
    is stored. *)
Theorem create_schema_input (request : HttpRequest) (ctype opk : string)
    (s : Store) (ct : ContentType) (target : Target)
    (members : list (string * json)) (sent : string) :
  can_create_comment root request ctype opk = true ->
  get_content_type_and_target_or_none ctype opk = Some (ct, target) ->
  json_loads (request_body request) = Some (JObj members) ->
  assoc_get "comment" members = Some (JStr sent)
  \/ (assoc_get "comment" members = None /\ sent = EmptyString) ->
  exists body' : json,
    dict_get body' "comment" JNull = Ok (JStr (bleach_linkify (bleach_clean sent)))
    /\ (forall key default, key <> "comment" ->
          dict_get body' key default = dict_get (JObj members) key default)
    /\ (forall err, validate_json body' = (false, err) ->
          create_comment request ctype opk s
            = (Ok (mkResponse 400 (ErrorJson err)), s)).
Proof.
  intros Hperm Htarget Hbody Hsent.
  set (text := bleach_linkify (bleach_clean sent)).
  exists (JObj (assoc_set "comment" (JStr text) members)).
  assert (dict_get (JObj members) "comment" (JStr EmptyString) = Ok (JStr sent))
    as Hraw.
  { simpl. by destruct Hsent as [-> | [-> ->]]. }
  split; [| split].
  - simpl. by rewrite assoc_get_set_eq.
  - intros key default Hkey. simpl. rewrite assoc_get_set_ne; [done |].
    congruence.
  - intros err Hvalid.
    apply (create_validates_sanitized registry get_content_type_and_target_or_none
             json_loads bleach_clean bleach_linkify validate_json get_prep_value
             request ctype opk s ct target (JObj members)
             (JObj (assoc_set "comment" (JStr text) members)) (JStr sent) text err);
      done.
Qed.

(** X8: a create whose body parses to anything but a dict lets
    [AttributeError] escape, and a create whose body is a dict with a comment
    that is not text lets [TypeError] escape; in both cases the schema is
    not consulted, the client gets a 500 and the table is as it was. *)
Theorem create_ill_typed_body (request : HttpRequest) (ctype opk : string)
    (s : Store) (body : json) :
  can_create_comment root request ctype opk = true ->
  is_Some (get_content_type_and_target_or_none ctype opk) ->
  json_loads (request_body request) = Some body ->
  ((forall members, body <> JObj members) ->
   create_comment request ctype opk s = (Raise AttributeError, s))
  /\ (forall members v,
        body = JObj members ->
        assoc_get "comment" members = Some v ->
        (forall t, v <> JStr t) ->
        create_comment request ctype opk s = (Raise TypeError, s)).
Proof.
  intros Hperm [[ct target] Htarget] Hbody.
  unfold_views. unfold CommentView.perms. simpl.
  rewrite Hperm. simpl. rewrite Htarget, Hbody. simpl. split.
  - intros Hnodict. destruct body; simpl; try reflexivity.
    by destruct (Hnodict members).
  - intros members v -> Hv Hnotext. simpl. rewrite Hv.
    destruct v; simpl; try reflexivity. by destruct (Hnotext s0).
Qed.

(** ** Update and delete *)

(** X9: a body that passes the schema without a comment key updates
    nothing: the missing comment counts as the empty text, and when the
    sanitizer leaves the empty text empty, the authorized update of an
    active comment is answered 304 and the table is as it was. *)
Theorem update_without_comment (request : HttpRequest) (ctype opk : string)
    (comment_id : Z) (s : Store) (c : Comment)
    (members : list (string * json)) (err : string) :
  can_update_comment detail request ctype opk comment_id = true ->
  s !! comment_id = Some c ->
  is_active c = true ->
  json_loads (request_body request) = Some (JObj members) ->
  validate_json (JObj members) = (true, err) ->
  assoc_get "comment" members = None ->
  bleach_linkify (bleach_clean EmptyString) = EmptyString ->
  update_comment request ctype opk comment_id s
    = (Ok (mkResponse 304 NoContent), s).
Proof.
  intros Hperm Hc Hactive Hbody Hvalid Hmissing Hempty.
  rewrite (update_outcome registry json_loads bleach_clean bleach_linkify
             validate_json request ctype opk comment_id s c (JObj members)
             (JStr EmptyString) err EmptyString); try done.
  - simpl. by rewrite Hmissing.
  - simpl. by rewrite Hempty.
Qed.

(** X10: an update answered with 200 can be read back: every authorized get
    on the same id that follows returns 200 with the comment and its new
    body. *)
Theorem update_then_get (request : HttpRequest) (ctype opk : string)
    (comment_id : Z) (s : Store) (c : Comment) (body raw : json)
    (err text : string) :
  can_update_comment detail request ctype opk comment_id = true ->
  s !! comment_id = Some c ->
  is_active c = true ->
  json_loads (request_body request) = Some body ->
  validate_json body = (true, err) ->
  dict_get body "comment" (JStr EmptyString) = Ok raw ->
  _sanitize_and_linkify bleach_clean bleach_linkify raw = Ok text ->
  text <> EmptyString ->
  forall (request' : HttpRequest) (ctype' opk' : string),
    can_get_comment detail request' ctype' opk' comment_id = true ->
    exists c' : Comment,
      get_comment request' ctype' opk' comment_id
                  (snd (update_comment request ctype opk comment_id s))
        = (Ok (mkResponse 200 (CommentJson (comment_id, c'))),
           snd (update_comment request ctype opk comment_id s))
      /\ comment c' = text
      /\ origin c' = origin c.
Proof.
  intros Hperm Hc Hactive Hbody Hvalid Hraw Htext Hne request' ctype' opk' Hget.
  rewrite (update_outcome registry json_loads bleach_clean bleach_linkify
             validate_json request ctype opk comment_id s c body raw err text)
    by assumption.
  destruct (String.eqb_spec text EmptyString) as [-> | _]; [done |]. simpl.
  exists (set_comment text c). split; [| done].
  unfold_views. unfold CommentDetailView.perms. simpl. rewrite Hget. simpl.
  rewrite (proj2 (lookup_active _ comment_id (set_comment text c))
             (conj (lookup_insert_eq _ _ _) Hactive)).
  by simpl.
Qed.

(** X11: the item-level handlers look at the request for the permission
    predicate and, in update, for the body, and at nothing else: they never
    compare the user of the request with the author of the comment.  Two
    requests with the same body on which the predicates agree get the same
    outcome from get, update and delete, whoever sends them. *)
Theorem item_handlers_ignore_sender (request request' : HttpRequest)
    (ctype opk : string) (comment_id : Z) (s : Store) :
  request_body request = request_body request' ->
  can_get_comment detail request ctype opk comment_id
    = can_get_comment detail request' ctype opk comment_id ->
  can_update_comment detail request ctype opk comment_id
    = can_update_comment detail request' ctype opk comment_id ->
  get_comment request ctype opk comment_id s
    = get_comment request' ctype opk comment_id s
  /\ update_comment request ctype opk comment_id s
     = update_comment request' ctype opk comment_id s
  /\ delete_comment request ctype opk comment_id s
     = delete_comment request' ctype opk comment_id s.
Proof.
  intros Hbody Hget Hupdate.
  unfold_views. unfold CommentDetailView.perms. simpl.
  by rewrite Hbody, Hget, Hupdate.
Qed.

(** ** Rows over time *)

Lemma handler_edits (e : Endpoint) (request : HttpRequest) (ctype opk : string)
    (comment_id : Z) (s : Store) :
  edits s (snd (handle e request ctype opk comment_id s)).
Proof.
  destruct e; unfold_views; simpl.
  - repeat case_match; simplify_eq/=; constructor.
  - repeat case_match; simplify_eq/=; constructor.
  - repeat case_match; simplify_eq/=; constructor.
  - destruct (negb _); simpl; [constructor |].
    destruct (active s !! comment_id) as [c |] eqn:Hc; simpl; [| constructor].
    apply lookup_active in Hc as [Hc Hactive].
    repeat case_match; simplify_eq/=;
      first [apply edits_nothing | by apply edits_body].
  - destruct (negb _); simpl; [constructor |].
    destruct (active s !! comment_id) as [c |] eqn:Hc; simpl; [| constructor].
    apply lookup_active in Hc as [Hc Hactive].
    by apply edits_flag.
Qed.

Lemma edits_keeps (s s' : Store) (k : Z) (c : Comment) :
  edits s s' -> s !! k = Some c ->
  exists c', s' !! k = Some c'
             /\ origin c' = origin c
             /\ (is_active c' = true -> is_active c = true).
Proof.
  intros Hstep Hk. destruct Hstep as [| j x text Hj Hx | j x Hj Hx | x'].
  - by exists c.
  - destruct (decide (j = k)) as [-> | Hne].
    + rewrite lookup_insert_eq. exists (set_comment text x).
      assert (x = c) as -> by congruence. by repeat split.
    + rewrite lookup_insert_ne by done. by exists c.
  - destruct (decide (j = k)) as [-> | Hne].
    + rewrite lookup_insert_eq. exists (set_is_active false x).
      assert (x = c) as -> by congruence. by repeat split.
    + rewrite lookup_insert_ne by done. by exists c.
  - rewrite lookup_insert_ne; [by exists c |]. intros <-.
    by rewrite next_pk_fresh in Hk.
Qed.

(** X12: no request ever removes a row or moves it: after any sequence of
    requests to the five endpoints, every row of the table is still there
    under its key, with the content type, object pk, author, parent and
    creation time it had, and it is active only if it was active before. *)
Theorem rows_are_kept (calls : list Call) (s : Store) (k : Z) (c : Comment) :
  s !! k = Some c ->
  exists c', served_all calls s !! k = Some c'
             /\ origin c' = origin c
             /\ (is_active c' = true -> is_active c = true).
Proof.
  revert s c. induction calls as [| call calls IH]; intros s c Hk; simpl.
  - by exists c.
  - assert (edits s (snd (served call s))) as Hstep.
    { destruct call as [e request ctype opk comment_id].
      pose proof (handler_edits e request ctype opk comment_id s) as Hstep.
      unfold serve, convert_exception_to_response. simpl.
      by destruct (handle e request ctype opk comment_id s) as [[? | []] ?]. }
    destruct (edits_keeps _ _ k c Hstep Hk) as (c1 & Hk1 & Horigin1 & Hactive1).
    destruct (IH _ c1 Hk1) as (c' & Hk' & Horigin' & Hactive').
    exists c'. split; [done |]. split; [congruence | auto].
Qed.

(** X13: a deactivated comment is out of reach of the item-level handlers
    and of list for good: after any sequence of requests, an authorized
    update or delete on its id raises [Http404] and leaves the table as it
    is, and no list, of whatever path, holds it. *)
Theorem deactivated_is_out_of_reach (calls : list Call) (s : Store)
    (comment_id : Z) (c : Comment) :
  s !! comment_id = Some c ->
  is_active c = false ->
  forall (request : HttpRequest) (ctype opk : string),
    (can_update_comment detail request ctype opk comment_id = true ->
     update_comment request ctype opk comment_id (served_all calls s)
       = (Raise Http404, served_all calls s))
    /\ (can_get_comment detail request ctype opk comment_id = true ->
        delete_comment request ctype opk comment_id (served_all calls s)
          = (Raise Http404, served_all calls s))
    /\ (forall comments,
          fst (list_comments request ctype opk (served_all calls s))
            = Ok (mkResponse 200 (CommentListJson comments)) ->
          forall x, (comment_id, x) ∉ comments).
Proof.
  intros Hc Hinactive request ctype opk.
  pose proof (serve_all_frozen registry get_content_type_and_target_or_none
                json_loads bleach_clean bleach_linkify validate_json
                get_prep_value calls s comment_id c Hc Hinactive) as Hfrozen.
  assert (active (served_all calls s) !! comment_id = None) as Hgone.
  { apply lookup_active_None. intros x Hx. congruence. }
  split; [| split].
  - intros Hperm. unfold_views. unfold CommentDetailView.perms. simpl.
    rewrite Hperm. simpl. by rewrite Hgone.
  - intros Hperm. unfold_views. unfold CommentDetailView.perms. simpl.
    rewrite Hperm. simpl. by rewrite Hgone.
  - intros comments. unfold_views. simpl.
    destruct (negb _); simpl; [discriminate |].
    destruct (get_content_type_and_target_or_none ctype opk) as [[ct target] |];
      simpl; [| discriminate].
    intros [= <-] x Hx.
    apply elem_of_evaluate, lookup_active in Hx as [Hx Hactive].
    apply lookup_for_model in Hx as [Hx _]. congruence.
Qed.

End Coverage.

(** ** The further properties at sample requests *)

Local Abbreviation hello := (Sample.request (Sample.comment_body "hello")).
Local Abbreviation hello_row := (mkComment 7 "10" "dee" None "hello" true 300).

Lemma create_stores_one_row_witness :
  exists (ct : ContentType) (target : Target) (k : Z) (c : Comment) (t : string),
    Sample.get_content_type_and_target_or_none "7" "10" = Some (ct, target)
    /\ CommentJson (5, hello_row) = CommentJson (k, c)
    /\ Sample.table !! k = None
    /\ (<[5 := hello_row]> Sample.table : Store) !! k = Some c
    /\ (forall j, j <> k ->
          (<[5 := hello_row]> Sample.table : Store) !! j = Sample.table !! j)
    /\ content_type c = ct
    /\ object_pk c = "10"
    /\ user c = "dee"
    /\ comment c = Sample.bleach_linkify (Sample.bleach_clean t)
    /\ is_active c = true
    /\ (forall p, parent c = Some p ->
          exists x, Sample.table !! p = Some x
                    /\ content_type x = target_content_type target
                    /\ object_pk x = target_pk target).
Proof.
  apply (create_stores_one_row Sample.allow_all
           Sample.get_content_type_and_target_or_none Sample.json_loads
           Sample.bleach_clean Sample.bleach_linkify Sample.validate_json
           Sample.get_prep_value hello "7" "10" Sample.table
           (<[5 := hello_row]> Sample.table)
           (mkResponse 200 (CommentJson (5, hello_row))));
    vm_compute; reflexivity.
Defined.

(** Comment 3 of object 10 is deactivated; a reply to it is stored. *)
Lemma reply_to_any_comment_of_target_witness :
  Sample.create_comment Sample.allow_all
    (Sample.request (Sample.reply_body "re" "3")) "7" "10" Sample.table
  = (Ok (mkResponse 200
           (CommentJson (5, mkComment 7 "10" "dee" (Some 3) "re" true 300))),
     <[5 := mkComment 7 "10" "dee" (Some 3) "re" true 300]> Sample.table).
Proof.
  apply (reply_to_any_comment_of_target Sample.allow_all
           Sample.get_content_type_and_target_or_none Sample.json_loads
           Sample.bleach_clean Sample.bleach_linkify Sample.validate_json
           Sample.get_prep_value
           (Sample.request (Sample.reply_body "re" "3")) "7" "10" Sample.table
           7 (mkTarget 7 "10")
           (JObj [("comment", JStr "re"); ("parentID", JNum 3)])
           (JObj [("comment", JStr "re"); ("parentID", JNum 3)])
           (JStr "re") (JNum 3) "re" EmptyString 3 Sample.c3);
    try (vm_compute; reflexivity).
  discriminate.
Defined.

Lemma create_then_read_witness :
  exists (k : Z) (c : Comment),
    CommentJson (5, hello_row) = CommentJson (k, c)
    /\ Sample.get_comment Sample.allow_all blank "7" "10" k
         (<[5 := hello_row]> Sample.table)
       = (Ok (mkResponse 200 (CommentJson (k, c))), <[5 := hello_row]> Sample.table)
    /\ exists comments,
         Sample.list_comments Sample.allow_all blank "7" "10"
           (<[5 := hello_row]> Sample.table)
         = (Ok (mkResponse 200 (CommentListJson comments)),
            <[5 := hello_row]> Sample.table)
         /\ (k, c) ∈ comments.
Proof.
  destruct (create_then_read Sample.allow_all
              Sample.get_content_type_and_target_or_none Sample.json_loads
              Sample.bleach_clean Sample.bleach_linkify Sample.validate_json
              Sample.get_prep_value hello "7" "10" Sample.table
              (<[5 := hello_row]> Sample.table)
              (mkResponse 200 (CommentJson (5, hello_row))))
    as (k & c & Hcontent & Hget & Hlist); try (vm_compute; reflexivity).
  exists k, c. split; [exact Hcontent |].
  split; [apply Hget; reflexivity |].
  apply (Hlist blank 7 (mkTarget 7 "10")); reflexivity.
Defined.

(** Three blanks sanitize to nothing and the schema refuses the empty
    comment: create answers 400. *)
Lemma create_schema_input_witness :
  exists body' : json,
    dict_get body' "comment" JNull = Ok (JStr EmptyString)
    /\ (forall key default, key <> "comment" ->
          dict_get body' key default
            = dict_get (JObj [("comment", JStr "   ")]) key default)
    /\ (forall err, Sample.validate_json body' = (false, err) ->
          Sample.create_comment Sample.allow_all
            (Sample.request (Sample.comment_body "   ")) "7" "10" Sample.table
          = (Ok (mkResponse 400 (ErrorJson err)), Sample.table)).
Proof.
  apply (create_schema_input Sample.allow_all
           Sample.get_content_type_and_target_or_none Sample.json_loads
           Sample.bleach_clean Sample.bleach_linkify Sample.validate_json
           Sample.get_prep_value (Sample.request (Sample.comment_body "   "))
           "7" "10" Sample.table 7 (mkTarget 7 "10")
           [("comment", JStr "   ")] "   ");
    try (vm_compute; reflexivity).
  left. reflexivity.
Defined.

(** The bodies [[1]] and [{"comment": 5}]. *)
Lemma create_ill_typed_body_witness :
  Sample.create_comment Sample.allow_all (Sample.request "[1]") "7" "10" Sample.table
    = (Raise AttributeError, Sample.table)
  /\ Sample.create_comment Sample.allow_all
       (Sample.request ("{" +:+ Sample.quoted "comment" +:+ ": 5}")) "7" "10"
       Sample.table
     = (Raise TypeError, Sample.table).
Proof.
  split.
  - apply (create_ill_typed_body Sample.allow_all
             Sample.get_content_type_and_target_or_none Sample.json_loads
             Sample.bleach_clean Sample.bleach_linkify Sample.validate_json
             Sample.get_prep_value (Sample.request "[1]") "7" "10" Sample.table
             (JArr [JNum 1])); try (vm_compute; reflexivity).
    + vm_compute. eauto.
    + discriminate.
  - apply (create_ill_typed_body Sample.allow_all
             Sample.get_content_type_and_target_or_none Sample.json_loads
             Sample.bleach_clean Sample.bleach_linkify Sample.validate_json
             Sample.get_prep_value
             (Sample.request ("{" +:+ Sample.quoted "comment" +:+ ": 5}"))
             "7" "10" Sample.table (JObj [("comment", JNum 5)]))
      with (members := [("comment", JNum 5)]) (v := JNum 5);
      try (vm_compute; reflexivity).
    + vm_compute. eauto.
    + discriminate.
Defined.

(** Under a schema that accepts every body, the body [{}] updates nothing. *)
Lemma update_without_comment_witness :
  CommentDetailView.put Sample.allow_all Sample.json_loads Sample.bleach_clean
    Sample.bleach_linkify (fun _ => (true, EmptyString))
    (Sample.request "{}") "7" "10" 1 Sample.table
  = (Ok (mkResponse 304 NoContent), Sample.table).
Proof.
  apply (update_without_comment Sample.allow_all Sample.json_loads
           Sample.bleach_clean Sample.bleach_linkify (fun _ => (true, EmptyString))
           (Sample.request "{}") "7" "10" 1 Sample.table Sample.c1 [] EmptyString);
    vm_compute; reflexivity.
Defined.

Lemma update_then_get_witness :
  exists c' : Comment,
    Sample.get_comment Sample.allow_all blank "7" "10" 1
      (snd (Sample.update_comment Sample.allow_all
              (Sample.request (Sample.comment_body "edited")) "7" "10" 1
              Sample.table))
    = (Ok (mkResponse 200 (CommentJson (1, c'))),
       snd (Sample.update_comment Sample.allow_all
              (Sample.request (Sample.comment_body "edited")) "7" "10" 1
              Sample.table))
    /\ comment c' = "edited"
    /\ origin c' = origin Sample.c1.
Proof.
  apply (update_then_get Sample.allow_all Sample.json_loads Sample.bleach_clean
           Sample.bleach_linkify Sample.validate_json
           (Sample.request (Sample.comment_body "edited")) "7" "10" 1 Sample.table
           Sample.c1 (JObj [("comment", JStr "edited")]) (JStr "edited")
           EmptyString "edited"); try (vm_compute; reflexivity).
  discriminate.
Defined.

(** bob deletes the comment of ann as ann would. *)
Lemma item_handlers_ignore_sender_witness :
  Sample.get_comment Sample.allow_all (mkRequest "ann" true EmptyString 0)
                     "7" "10" 1 Sample.table
    = Sample.get_comment Sample.allow_all (mkRequest "bob" true EmptyString 9)
                         "7" "10" 1 Sample.table
  /\ Sample.update_comment Sample.allow_all (mkRequest "ann" true EmptyString 0)
                           "7" "10" 1 Sample.table
     = Sample.update_comment Sample.allow_all (mkRequest "bob" true EmptyString 9)
                             "7" "10" 1 Sample.table
  /\ Sample.delete_comment Sample.allow_all (mkRequest "ann" true EmptyString 0)
                           "7" "10" 1 Sample.table
     = Sample.delete_comment Sample.allow_all (mkRequest "bob" true EmptyString 9)
                             "7" "10" 1 Sample.table.
Proof.
  apply (item_handlers_ignore_sender Sample.allow_all Sample.json_loads
           Sample.bleach_clean Sample.bleach_linkify Sample.validate_json
           (mkRequest "ann" true EmptyString 0) (mkRequest "bob" true EmptyString 9)
           "7" "10" 1 Sample.table); reflexivity.
Defined.

Local Abbreviation busy_day :=
  [mkCall UpdateComment (Sample.request (Sample.comment_body "edited")) "7" "10" 1;
   mkCall DeleteComment blank "7" "10" 1;
   mkCall CreateComment (Sample.request (Sample.reply_body "re" "1")) "7" "10" 0;
   mkCall UpdateComment (Sample.request (Sample.comment_body "again")) "7" "10" 3].

Lemma rows_are_kept_witness :
  exists c',
    serve_all Sample.allow_all Sample.get_content_type_and_target_or_none
      Sample.json_loads Sample.bleach_clean Sample.bleach_linkify
      Sample.validate_json Sample.get_prep_value busy_day Sample.table !! 1
    = Some c'
    /\ origin c' = origin Sample.c1
    /\ (is_active c' = true -> is_active Sample.c1 = true).
Proof.
  apply (rows_are_kept Sample.allow_all Sample.get_content_type_and_target_or_none
           Sample.json_loads Sample.bleach_clean Sample.bleach_linkify
           Sample.validate_json Sample.get_prep_value busy_day Sample.table 1
           Sample.c1).
  reflexivity.
Defined.

Lemma deactivated_is_out_of_reach_witness :
  Sample.update_comment Sample.allow_all
    (Sample.request (Sample.comment_body "again")) "7" "10" 3
    (serve_all Sample.allow_all Sample.get_content_type_and_target_or_none
       Sample.json_loads Sample.bleach_clean Sample.bleach_linkify
       Sample.validate_json Sample.get_prep_value busy_day Sample.table)
  = (Raise Http404,
     serve_all Sample.allow_all Sample.get_content_type_and_target_or_none
       Sample.json_loads Sample.bleach_clean Sample.bleach_linkify
       Sample.validate_json Sample.get_prep_value busy_day Sample.table).
Proof.
  apply (deactivated_is_out_of_reach Sample.allow_all
           Sample.get_content_type_and_target_or_none Sample.json_loads
           Sample.bleach_clean Sample.bleach_linkify Sample.validate_json
           Sample.get_prep_value busy_day Sample.table 3 Sample.c3);
    reflexivity.
Defined.
